(** * cf-workers-telegram-bot: update classification, dispatch, reply channel
      and the rate-limited outbound client

    A shallow embedding of [telegram_api.ts], [telegram_execution_context.ts],
    [telegram_bot.ts] and [types/updateTypeMap.ts].

    Conventions.
    - JavaScript numbers that hold counters and millisecond timestamps are
      integers; they are [Z] here.
    - A JavaScript string is a [string]; every operation the code applies
      ([length], [startsWith], [slice], [split]) works unit by unit, and one
      [ascii] stands for one code unit.
    - Asynchronous methods are run to completion one after the other: a
      method is a transformer of the [World] that either returns a value or
      throws. *)

From Stdlib Require Import ZArith Lia Ascii.
From stdpp Require Import base option list gmap strings pretty.

Local Open Scope Z_scope.
Local Open Scope string_scope.

(* ===================================================================== *)
(** ** JavaScript values and truthiness *)
(* ===================================================================== *)

Module Js.

(** [!!s] for a string: the empty string is falsy. *)
Definition truthy_str (s : string) : bool :=
  match s with
  | EmptyString => false
  | String _ _ => true
  end.

(** [!!x] for an optional string field ([undefined] is falsy). *)
Definition truthy_ostr (o : option string) : bool :=
  match o with
  | Some s => truthy_str s
  | None => false
  end.

(** [!!x] for an optional object or array: present means truthy (an empty
    array is truthy as well). *)
Definition truthy_obj {A : Type} (o : option A) : bool :=
  match o with
  | Some _ => true
  | None => false
  end.

(** [a || b] on optional strings. *)
Definition or_ostr (a b : option string) : option string :=
  if truthy_ostr a then a else b.

(** [a || ''] *)
Definition or_empty (a : option string) : string :=
  match a with
  | Some s => s
  | None => ""
  end.

(** [s.startsWith('/')] *)
Definition startsWith_slash (s : string) : bool :=
  match s with
  | String c _ => Ascii.eqb c "/"%char
  | EmptyString => false
  end.

(** [s.slice(1)] *)
Definition slice1 (s : string) : string :=
  match s with
  | String _ r => r
  | EmptyString => EmptyString
  end.

(** [s.split(' ')]: the pieces between occurrences of U+0020; never an
    empty array. *)
Fixpoint split_space (s : string) : list string :=
  match s with
  | EmptyString => [EmptyString]
  | String c r =>
      if Ascii.eqb c " "%char then EmptyString :: split_space r
      else match split_space r with
           | p :: ps => String c p :: ps
           | [] => [String c EmptyString]
           end
  end.

(** A template literal prints an absent value as [undefined]. *)
Definition show_ostr (o : option string) : string :=
  match o with
  | Some s => s
  | None => "undefined"
  end.

End Js.

(* ===================================================================== *)
(** ** types/UpdateType.ts, types/TelegramUpdate.ts *)
(* ===================================================================== *)

Inductive UpdateType : Type :=
| Message | Photo | Inline | Document | Callback | BusinessMessage.

(** The string value of each enum member. *)
Definition UpdateType_value (t : UpdateType) : string :=
  match t with
  | Message => "message"
  | Photo => "photo"
  | Inline => "inline"
  | Document => "document"
  | Callback => "callback"
  | BusinessMessage => "business_message"
  end.

Definition UpdateType_eqb (a b : UpdateType) : bool :=
  match a, b with
  | Message, Message | Photo, Photo | Inline, Inline
  | Document, Document | Callback, Callback
  | BusinessMessage, BusinessMessage => true
  | _, _ => false
  end.

Record Chat : Type := { chat_id : Z }.

Record PhotoSize : Type := { photo_file_id : string }.

Record TelegramDocument : Type := { document_file_id : string }.

(** Modelled from the spec: [types/TelegramUpdate.ts] is not among the
    sources. The records below hold the fields the code reads, typed as the
    data model of the specification lists them: optional sub-objects
    [message] (with optional [text], [photo], [document]),
    [business_message], [inline_query], [callback_query]. *)
Record TelegramMessage : Type := {
  message_id : Z;
  chat : Chat;
  text : option string;
  photo : option (list PhotoSize);
  document : option TelegramDocument
}.

Record TelegramBusinessMessage : Type := {
  bm_message_id : Z;
  bm_chat : Chat;
  bm_text : option string;
  business_connection_id : string
}.

Record TelegramInlineQuery : Type := { iq_id : string; query : string }.

Record TelegramCallbackQuery : Type := { cq_id : string }.

Record TelegramUpdate : Type := {
  message : option TelegramMessage;
  business_message : option TelegramBusinessMessage;
  inline_query : option TelegramInlineQuery;
  callback_query : option TelegramCallbackQuery
}.

(** [update.message?.text] and friends. *)
Definition message_text (u : TelegramUpdate) : option string :=
  m ← message u; text m.

Definition business_text (u : TelegramUpdate) : option string :=
  m ← business_message u; bm_text m.

(* ===================================================================== *)
(** ** types/updateTypeMap.ts *)
(* ===================================================================== *)

Definition updateTypeMap : list (UpdateType * (TelegramUpdate → bool)) :=
  [ (Photo, λ update, Js.truthy_obj (m ← message update; photo m));
    (Document, λ update, Js.truthy_obj (m ← message update; document m));
    (Message, λ update, Js.truthy_ostr (message_text update));
    (Inline, λ update, Js.truthy_ostr (query <$> inline_query update));
    (Callback, λ update, Js.truthy_ostr (cq_id <$> callback_query update));
    (BusinessMessage, λ update, Js.truthy_obj (business_message update)) ].

(** The constructor's loop: [for (const {type, predicate} of map)
    if (predicate(update)) { this.update_type = type; break; }], starting
    from [update_type = null]. *)
Fixpoint classify_with (map : list (UpdateType * (TelegramUpdate → bool)))
    (update : TelegramUpdate) : option UpdateType :=
  match map with
  | [] => None
  | (type, predicate) :: rest =>
      if predicate update then Some type else classify_with rest update
  end.

Definition classify : TelegramUpdate → option UpdateType :=
  classify_with updateTypeMap.

(* ===================================================================== *)
(** ** telegram_api.ts: parameter objects and responses *)
(* ===================================================================== *)

Inductive ParseMode : Type := Markdown | MarkdownV2 | HTML.

Definition ParseMode_value (p : ParseMode) : string :=
  match p with
  | Markdown => "Markdown"
  | MarkdownV2 => "MarkdownV2"
  | HTML => "HTML"
  end.

Inductive InlineQueryResult : Type :=
| InlineQueryResultArticle (id title message_text : string)
    (parse_mode : option ParseMode)
| InlineQueryResultPhoto (id photo_url thumb_url : string)
    (caption : option string)
| InlineQueryResultVideo (id video_url mime_type thumb_url title : string)
    (caption : option string).

Record BotCommand : Type := { bc_command : string; bc_description : string }.

(** The values that travel in parameter objects. *)
Inductive Val : Type :=
| VUndefined
| VStr (s : string)
| VNum (n : Z)
| VBool (b : bool)
| VBlob (content mime : string)
| VResults (rs : list InlineQueryResult)
| VCommands (cs : list BotCommand).

(** A parameter object: its own properties.  An object spread followed by
    named properties, [{...o, k: v}], is [<[k:=v]> o]. *)
Abbreviation Params := (gmap string Val).

Module JsVal.

Definition of_ostr (o : option string) : Val :=
  match o with
  | Some s => VStr s
  | None => VUndefined
  end.

(** [!!v] *)
Definition truthy (v : Val) : bool :=
  match v with
  | VUndefined => false
  | VStr s => Js.truthy_str s
  | VNum n => negb (Z.eqb n 0)
  | VBool b => b
  | VBlob _ _ | VResults _ | VCommands _ => true
  end.

Definition is_undefined (v : Val) : bool :=
  match v with
  | VUndefined => true
  | _ => false
  end.

(** [v instanceof Blob] *)
Definition is_blob (v : Val) : bool :=
  match v with
  | VBlob _ _ => true
  | _ => false
  end.

(** [o[k]]: a missing property reads as [undefined]. *)
Definition get (o : Params) (k : string) : Val := default VUndefined (o !! k).

Definition objects_joined {A : Type} (l : list A) : string :=
  String.concat "," ((λ _, "[object Object]") <$> l).

(** [v.toString()]; reading the method off [undefined] is a TypeError. *)
Definition toString (v : Val) : option string :=
  match v with
  | VUndefined => None
  | VStr s => Some s
  | VNum n => Some (pretty n)
  | VBool b => Some (if b then "true" else "false")
  | VBlob _ _ => Some "[object Blob]"
  | VResults rs => Some (objects_joined rs)
  | VCommands cs => Some (objects_joined cs)
  end.

(** What a template literal or [FormData.append] makes of a value. *)
Definition show (v : Val) : string := default "undefined" (toString v).

End JsVal.

Inductive ApiResult : Type :=
| ResultFile (file_path : string)
| ResultOther.

Record TelegramApiResponse : Type := {
  ok : bool;
  result : ApiResult;
  description : option string
}.

(** [data.result.file_path] *)
Definition result_file_path (d : TelegramApiResponse) : option string :=
  match result d with
  | ResultFile p => Some p
  | ResultOther => None
  end.

(** A [Response]: status, body text, and what [response.json()] yields
    ([None] when the body is not JSON). *)
Record Response : Type := {
  status : Z;
  body : string;
  json_of : option TelegramApiResponse
}.

(** [new Response(text)] and [new Response(text, {status})] *)
Definition new_Response (text : string) (st : Z) : Response :=
  {| status := st; body := text; json_of := None |}.

Inductive FormValue : Type :=
| FormString (s : string)
| FormFile (content mime filename : string).

Inductive Payload : Type :=
| NoBody
| JsonBody (o : Params)
| FormBody (fields : gmap string FormValue).

Inductive Method : Type := GET | POST.

(** The arguments of one [fetch]; [query] is what [URLSearchParams]
    encodes after the question mark. *)
Record FetchRequest : Type := {
  fr_url : string;
  fr_method : Method;
  fr_query : option Params;
  fr_payload : Payload
}.

Inductive JsError : Type :=
| TypeError (msg : string)
| FetchError (msg : string)
| SyntaxError (msg : string)
| UserError (msg : string).

Inductive FetchOutcome : Type :=
| Responded (r : Response)
| Failed (e : JsError).

(* ===================================================================== *)
(** ** The rate limiter's state (the static fields of [TelegramApi]) *)
(* ===================================================================== *)

Record Limiter : Type := { requestCount : Z; resetTime : Z }.

Module RateLimit.

(** Lines 138-141: [if (now > resetTime) { resetTime = now + 1000;
    requestCount = 0; }] *)
Definition refresh (now : Z) (l : Limiter) : Limiter :=
  if Z.ltb (resetTime l) now
  then {| requestCount := 0; resetTime := now + 1000 |}
  else l.

(** Line 142: [requestCount >= 30] *)
Definition full (l : Limiter) : bool := Z.leb 30 (requestCount l).

(** Line 143: [waitTime = resetTime - now] *)
Definition waitTime (now : Z) (l : Limiter) : Z := resetTime l - now.

(** Lines 145-146, run when the timer has fired; [woke] is what
    [Date.now()] returns then. *)
Definition restart (woke : Z) : Limiter :=
  {| requestCount := 0; resetTime := woke + 1000 |}.

(** Line 148: [requestCount++] *)
Definition count (l : Limiter) : Limiter :=
  {| requestCount := requestCount l + 1; resetTime := resetTime l |}.

(** One call of [rateLimit()] entered at time [now]; when it has to wait,
    the timer resolves at time [woke]. The second component is the
    delay handed to [setTimeout], if any. *)
Definition step (now woke : Z) (l : Limiter) : Limiter * option Z :=
  let l1 := refresh now l in
  if full l1
  then (count (restart woke), Some (waitTime now l1))
  else (count l1, None).

(** [setTimeout(resolve, d)] fires after [d] milliseconds, at once when
    [d] is not positive. *)
Definition timer_fires (now d : Z) : Z := now + Z.max 0 d.

(** The call with a timer that fires exactly on time. *)
Definition step_nominal (now : Z) (l : Limiter) : Limiter * option Z :=
  step now (timer_fires now (waitTime now (refresh now l))) l.

(** A sequence of calls, each entering at the given time; the result
    lists, call by call, the delay the call waited for, if any. *)
Fixpoint run (times : list Z) (l : Limiter) : Limiter * list (option Z) :=
  match times with
  | [] => (l, [])
  | now :: rest =>
      let (l', d) := step_nominal now l in
      let (l'', ds) := run rest l' in
      (l'', d :: ds)
  end.

End RateLimit.

(* ===================================================================== *)
(** ** The world a method runs in *)
(* ===================================================================== *)

Inductive LogLevel : Type := LLog | LWarn | LError.

(** What a run leaves behind, in order. [EvRateLimit] marks an entry into
    [TelegramApi.rateLimit]; the others are the calls of the platform
    ([setTimeout], [fetch], [request.json], [console]). *)
Inductive Event : Type :=
| EvRateLimit
| EvSleep (ms : Z)
| EvFetch (r : FetchRequest)
| EvReadBody
| EvConsole (level : LogLevel) (msg : string).

Record World : Type := {
  limiter : Limiter;                      (* TelegramApi.requestCount/resetTime *)
  clock : Z;                              (* Date.now() *)
  network : FetchRequest → FetchOutcome;  (* what the upstream answers *)
  trace : list Event
}.

Inductive Completion (A : Type) : Type :=
| Normal (a : A)
| Throw (e : JsError).
Arguments Normal {A} a.
Arguments Throw {A} e.

(** An async method, run to completion. *)
Definition M (A : Type) : Type := World → Completion A * World.

Definition ret {A : Type} (a : A) : M A := λ w, (Normal a, w).

Definition throw {A : Type} (e : JsError) : M A := λ w, (Throw e, w).

Definition bind {A B : Type} (m : M A) (k : A → M B) : M B :=
  λ w, match m w with
       | (Normal a, w') => k a w'
       | (Throw e, w') => (Throw e, w')
       end.

(** [try { body } catch (error) { handler }] *)
Definition try_catch {A : Type} (body : M A) (handler : JsError → M A) : M A :=
  λ w, match body w with
       | (Normal a, w') => (Normal a, w')
       | (Throw e, w') => handler e w'
       end.

Declare Scope js_scope.
Delimit Scope js_scope with js.
Notation "'let*' x ':=' m 'in' k" := (bind m (λ x, k))
  (at level 10, x name, m at level 100, k at level 200) : js_scope.
Notation "m ';;' k" := (bind m (λ _, k))
  (at level 100, k at level 200, right associativity) : js_scope.
Local Open Scope js_scope.

Definition emit (e : Event) : M unit :=
  λ w, (Normal tt,
        {| limiter := limiter w; clock := clock w; network := network w;
           trace := trace w ++ [e] |}).

Definition console (level : LogLevel) (msg : string) : M unit :=
  emit (EvConsole level msg).

(** [Date.now()] *)
Definition Date_now : M Z := λ w, (Normal (clock w), w).

(** [await new Promise(resolve => setTimeout(resolve, d))] *)
Definition sleep (d : Z) : M unit :=
  λ w, (Normal tt,
        {| limiter := limiter w; clock := RateLimit.timer_fires (clock w) d;
           network := network w; trace := trace w ++ [EvSleep d] |}).

Definition get_limiter : M Limiter := λ w, (Normal (limiter w), w).

Definition set_limiter (l : Limiter) : M unit :=
  λ w, (Normal tt,
        {| limiter := l; clock := clock w; network := network w;
           trace := trace w |}).

(** [await fetch(...)]: a transport failure rejects. *)
Definition fetch (r : FetchRequest) : M Response :=
  emit (EvFetch r);;
  λ w, match network w r with
       | Responded resp => (Normal resp, w)
       | Failed e => (Throw e, w)
       end.

(** [await response.json()] *)
Definition json (r : Response) : M TelegramApiResponse :=
  match json_of r with
  | Some data => ret data
  | None => throw (SyntaxError "Unexpected token")
  end.

(* ===================================================================== *)
(** ** telegram_api.ts: class TelegramApi *)
(* ===================================================================== *)

Record TelegramApi : Type := { apiUrl : string }.

Module Api.

(** [constructor(token)] *)
Definition new (token : string) : TelegramApi :=
  {| apiUrl := "https://api.telegram.org/bot" ++ token |}.

(** [private async rateLimit()] *)
Definition rateLimit : M unit :=
  emit EvRateLimit;;
  let* now := Date_now in
  let* l := get_limiter in
  let l1 := RateLimit.refresh now l in
  set_limiter l1;;
  (if RateLimit.full l1
   then sleep (RateLimit.waitTime now l1);;
        let* woke := Date_now in
        set_limiter (RateLimit.restart woke)
   else ret tt);;
  let* l2 := get_limiter in
  set_limiter (RateLimit.count l2).

(** [private async post(endpoint, body)] *)
Definition post (this : TelegramApi) (endpoint : string) (body : Params)
    : M TelegramApiResponse :=
  rateLimit;;
  try_catch
    (let* response :=
       fetch {| fr_url := apiUrl this ++ "/" ++ endpoint;
                fr_method := POST;
                fr_query := None;
                fr_payload := JsonBody body |} in
     json response)
    (λ error, console LError ("Error in POST " ++ endpoint ++ ":");;
              throw error).

(** [private async get(endpoint, params)] *)
Definition get (this : TelegramApi) (endpoint : string) (params : Params)
    : M TelegramApiResponse :=
  rateLimit;;
  try_catch
    (let* response :=
       fetch {| fr_url := apiUrl this ++ "/" ++ endpoint;
                fr_method := GET;
                fr_query := Some params;
                fr_payload := NoBody |} in
     json response)
    (λ error, console LError ("Error in GET " ++ endpoint ++ ":");;
              throw error).

(** [async setMyCommands(commands)] *)
Definition setMyCommands (this : TelegramApi) (commands : list BotCommand)
    : M TelegramApiResponse :=
  rateLimit;;
  post this "setMyCommands" {[ "commands" := VCommands commands ]}.

Definition sendMessage (this : TelegramApi) (params : Params) :=
  post this "sendMessage" params.

Definition sendPhoto (this : TelegramApi) (params : Params) :=
  post this "sendPhoto" params.

Definition sendVideo (this : TelegramApi) (params : Params) :=
  post this "sendVideo" params.

(** The five keys [sendDocument] appends by name. *)
Definition named_fields : list string :=
  ["chat_id"; "document"; "caption"; "reply_to_message_id";
   "business_connection_id"].

(** [if (params.k) formData.append(k, params.k)] *)
Definition append_if_truthy (params : Params) (k : string)
    (form : gmap string FormValue) : gmap string FormValue :=
  if JsVal.truthy (JsVal.get params k)
  then <[ k := FormString (JsVal.show (JsVal.get params k)) ]> form
  else form.

(** The loop over the remaining keys:
    [formData.append(key, params[key].toString())]. It throws at the
    first key whose value is [undefined]. *)
Definition extra_fields (params : Params) : option (gmap string FormValue) :=
  let extras := filter (λ kv, kv.1 ∉ named_fields) params in
  if decide (map_Forall (λ _ v, JsVal.is_undefined v = false) extras)
  then Some (omap (λ v, FormString <$> JsVal.toString v) extras)
  else None.

(** The fields [sendDocument] appends by name, lines 244-248. *)
Definition blob_form (params : Params) (content mime : string)
    : gmap string FormValue :=
  append_if_truthy params "business_connection_id"
    (append_if_truthy params "reply_to_message_id"
       (append_if_truthy params "caption"
          (<[ "document" := FormFile content mime "document.txt" ]>
             {[ "chat_id" :=
                  FormString (JsVal.show (JsVal.get params "chat_id")) ]}))).

(** [async sendDocument(params)] *)
Definition sendDocument (this : TelegramApi) (params : Params)
    : M TelegramApiResponse :=
  match JsVal.get params "document" with
  | VBlob content mime =>
      match extra_fields params with
      | None => throw (TypeError "Cannot read properties of undefined")
      | Some extras =>
          try_catch
            (let* response :=
               fetch {| fr_url := apiUrl this ++ "/sendDocument";
                        fr_method := POST;
                        fr_query := None;
                        fr_payload :=
                          FormBody (extras ∪ blob_form params content mime) |} in
             json response)
            (λ error, console LError "Error in sendDocument with Blob:";;
                      throw error)
      end
  | _ => post this "sendDocument" params
  end.

Definition sendChatAction (this : TelegramApi) (params : Params) :=
  post this "sendChatAction" params.

Definition answerInline (this : TelegramApi) (params : Params) :=
  post this "answerInlineQuery" params.

Definition answerCallback (this : TelegramApi) (params : Params) :=
  post this "answerCallbackQuery" params.

(** What [getFile] may receive as [params]: an object with a [file_id]
    property, as its signature asks, or a bare string, as the execution
    context passes. *)
Inductive GetFileArg : Type :=
| GetFileParams (file_id : string)
| BareString (s : string).

(** [params.file_id]: a string has no such property. *)
Definition arg_file_id (params : GetFileArg) : Val :=
  match params with
  | GetFileParams file_id => VStr file_id
  | BareString _ => VUndefined
  end.

(** The entries [new URLSearchParams(params)] sees. *)
Definition arg_query (params : GetFileArg) : Params :=
  match params with
  | GetFileParams file_id => {[ "file_id" := VStr file_id ]}
  | BareString s => {[ s := VStr "" ]}
  end.

(** [async getFile(params, token)] *)
Definition getFile (this : TelegramApi) (params : GetFileArg)
    (token : string) : M Response :=
  rateLimit;;
  if negb (JsVal.truthy (arg_file_id params))
  then ret (new_Response "file_id is required" 400)
  else
    let* data := get this "getFile" (arg_query params) in
    if ok data
    then fetch {| fr_url := "https://api.telegram.org/file/bot" ++ token
                              ++ "/" ++ Js.show_ostr (result_file_path data);
                  fr_method := GET;
                  fr_query := None;
                  fr_payload := NoBody |}
    else console LError "Error in getFile:";;
         ret (new_Response ("Error: " ++ Js.show_ostr (description data)) 400).

End Api.

(* ===================================================================== *)
(** ** telegram_execution_context.ts: class TelegramExecutionContext *)
(* ===================================================================== *)

(** Of the owning bot a context only ever reads [bot.token] and [bot.api];
    the record holds those two. *)
Record TelegramExecutionContext : Type := {
  bot_token : string;
  update : TelegramUpdate;
  update_type : option UpdateType;
  api : TelegramApi;
  command : option string
}.

Module Ctx.

(** Lines 159-165: [messageText = message?.text || business_message?.text
    || ''], and the command when it starts with a slash. *)
Definition messageText (update : TelegramUpdate) : string :=
  Js.or_empty (Js.or_ostr (message_text update) (business_text update)).

Definition extract_command (update_type : option UpdateType)
    (update : TelegramUpdate) : option string :=
  match update_type with
  | Some Message | Some BusinessMessage =>
      if Js.startsWith_slash (messageText update)
      then head (Js.split_space (Js.slice1 (messageText update)))
      else None
  | _ => None
  end.

(** The fields the constructor sets. *)
Definition make (token : string) (bot_api : TelegramApi)
    (update : TelegramUpdate) : TelegramExecutionContext :=
  let update_type := classify update in
  {| bot_token := token;
     update := update;
     update_type := update_type;
     api := bot_api;
     command := extract_command update_type update |}.

(** [new TelegramExecutionContext(bot, update)], with its warning. *)
Definition new (token : string) (bot_api : TelegramApi)
    (update : TelegramUpdate) : M TelegramExecutionContext :=
  let this := make token bot_api update in
  match update_type this with
  | Some _ => ret tt
  | None => console LWarn "Unhandled update type:"
  end;;
  ret this.

Definition getChatId (this : TelegramExecutionContext) : string :=
  match update_type this with
  | Some Message | Some Photo | Some Document =>
      default "" ((λ m, pretty (chat_id (chat m))) <$> message (update this))
  | Some BusinessMessage =>
      default ""
        ((λ m, pretty (chat_id (bm_chat m))) <$> business_message (update this))
  | _ => ""
  end.

Definition getReplyToMessageId (this : TelegramExecutionContext)
    : option string :=
  match update_type this with
  | Some Message | Some Photo | Some Document =>
      (λ m, pretty (message_id m)) <$> message (update this)
  | Some BusinessMessage =>
      (λ m, pretty (bm_message_id m)) <$> business_message (update this)
  | _ => None
  end.

(** [private async handleApiResponse(response, context)] *)
Definition handleApiResponse (response : TelegramApiResponse)
    (context : string) : M unit :=
  if ok response then ret tt
  else console LError ("Error in " ++ context ++ ":").

(** [private async sendMessage(options, context)] *)
Definition sendMessage (this : TelegramExecutionContext) (options : Params)
    (context : string) : M unit :=
  try_catch
    (let* response := Api.sendMessage (api this) options in
     handleApiResponse response context)
    (λ _, console LError ("Exception in " ++ context ++ ":")).

Definition MAX_MESSAGE_LENGTH : nat := 4096.

(** The caption of the document that carries an over-long text. *)
Definition LONG_TEXT_CAPTION : string :=
  "这是一个超长文本文件，无法在消息中显示。".

(** [private createTextDocument(text)] *)
Definition createTextDocument (text : string) : Val := VBlob text "text/plain".

(** [this.update.inline_query?.id.toString() ?? ''] *)
Definition inline_query_id (this : TelegramExecutionContext) : string :=
  default "" (iq_id <$> inline_query (update this)).

(** [this.update.business_message?.business_connection_id.toString()] *)
Definition connection_id (this : TelegramExecutionContext) : Val :=
  JsVal.of_ostr (business_connection_id <$> business_message (update this)).

Definition parse_mode_val (parse_mode : option ParseMode) : Val :=
  JsVal.of_ostr (ParseMode_value <$> parse_mode).

(** The [answerInline] call all four inline branches make. *)
Definition answer_with (this : TelegramExecutionContext)
    (r : InlineQueryResult) (context : string) : M unit :=
  try_catch
    (let* response :=
       Api.answerInline (api this)
         (<[ "results" := VResults [r] ]>
            {[ "inline_query_id" := VStr (inline_query_id this) ]}) in
     handleApiResponse response "answerInline")
    (λ _, console LError ("Exception in " ++ context ++ ":")).

(** [async reply(message, parse_mode?, options = {})] *)
Definition reply (this : TelegramExecutionContext) (message : string)
    (parse_mode : option ParseMode) (options : Params) : M unit :=
  match update_type this with
  | None => console LWarn "No update type set."
  | Some ut =>
      let commonOptions : Params :=
        <[ "parse_mode" := parse_mode_val parse_mode ]>
          (<[ "reply_to_message_id" :=
                JsVal.of_ostr (getReplyToMessageId this) ]>
             (<[ "chat_id" := VStr (getChatId this) ]> options)) in
      if Nat.ltb MAX_MESSAGE_LENGTH (String.length message)
         && negb (UpdateType_eqb ut Inline)
      then
        let documentOptions : Params :=
          <[ "caption" := VStr LONG_TEXT_CAPTION ]>
            (<[ "document" := createTextDocument message ]> commonOptions) in
        try_catch
          (let* response := Api.sendDocument (api this) documentOptions in
           handleApiResponse response "sendDocument")
          (λ _, console LError "Exception in sendDocument:")
      else
        match ut with
        | Message | Photo | Document =>
            sendMessage this (<[ "text" := VStr message ]> commonOptions)
              "sendMessage"
        | Inline =>
            answer_with this
              (InlineQueryResultArticle "1" message message parse_mode)
              "answerInline"
        | BusinessMessage =>
            let* response :=
              Api.sendMessage (api this)
                (<[ "parse_mode" := parse_mode_val parse_mode ]>
                   (<[ "business_connection_id" := connection_id this ]>
                      (<[ "text" := VStr message ]>
                         {[ "chat_id" :=
                              VStr (default ""
                                ((λ m, pretty (chat_id (bm_chat m)))
                                   <$> business_message (update this))) ]}))) in
            handleApiResponse response "sendMessage"
        | Callback => console LWarn "Unhandled update type:"
        end
  end.

(** [async replyPhoto(photo, caption = '', options = {})] *)
Definition replyPhoto (this : TelegramExecutionContext) (photo caption : string)
    (options : Params) : M unit :=
  match update_type this with
  | None => console LWarn "No update type set."
  | Some ut =>
      let commonOptions : Params :=
        <[ "caption" := VStr caption ]>
          (<[ "photo" := VStr photo ]>
             (<[ "reply_to_message_id" :=
                   JsVal.of_ostr (getReplyToMessageId this) ]>
                (<[ "chat_id" := VStr (getChatId this) ]> options))) in
      match ut with
      | Message | Photo =>
          Api.sendPhoto (api this) commonOptions;;
          ret tt
      | Inline =>
          answer_with this
            (InlineQueryResultPhoto "1" photo photo
               (if Js.truthy_str caption then Some caption else None))
            "answerInline"
      | _ => console LWarn "Unhandled update type for replyPhoto:"
      end
  end.

(** [async replyVideo(video, options = {})] *)
Definition replyVideo (this : TelegramExecutionContext) (video : string)
    (options : Params) : M unit :=
  match update_type this with
  | None => console LWarn "No update type set."
  | Some ut =>
      match ut with
      | Message =>
          Api.sendVideo (api this)
            (<[ "video" := VStr video ]>
               (<[ "reply_to_message_id" :=
                     JsVal.of_ostr (getReplyToMessageId this) ]>
                  (<[ "chat_id" := VStr (getChatId this) ]> options)));;
          ret tt
      | Inline =>
          answer_with this
            (InlineQueryResultVideo "1" video "video/mp4"
               "https://example.com/thumb.jpg" "Video Title"
               (Some "Video Caption"))
            "answerInline"
      | _ => console LWarn "Unhandled update type for replyVideo:"
      end
  end.

(** [async sendTyping()] *)
Definition sendTyping (this : TelegramExecutionContext) : M unit :=
  match update_type this with
  | None => console LWarn "No update type set."
  | Some ut =>
      let actionOptions : Params :=
        <[ "action" := VStr "typing" ]>
          {[ "chat_id" := VStr (getChatId this) ]} in
      match ut with
      | Message | Photo | Document =>
          Api.sendChatAction (api this) actionOptions;;
          ret tt
      | BusinessMessage =>
          Api.sendChatAction (api this)
            (<[ "business_connection_id" := connection_id this ]>
               actionOptions);;
          ret tt
      | _ => console LWarn "Unhandled update type for sendTyping:"
      end
  end.

(** [async replyInline(title, message, parse_mode?)] *)
Definition replyInline (this : TelegramExecutionContext)
    (title message : string) (parse_mode : option ParseMode) : M unit :=
  match update_type this with
  | Some Inline =>
      answer_with this
        (InlineQueryResultArticle "1" title message parse_mode)
        "replyInline"
  | _ => console LWarn "replyInline called on non-inline update type:"
  end.

(** [async getFile(file_id)]: the string itself goes where the client
    expects the parameter object. *)
Definition getFile (this : TelegramExecutionContext) (file_id : string)
    : M Response :=
  Api.getFile (api this) (Api.BareString file_id) (bot_token this).

End Ctx.

(* ===================================================================== *)
(** ** Property reads on an object literal used as a map *)
(* ===================================================================== *)

Module JsObject.

(** The string-keyed members every object literal inherits from
    [Object.prototype]. *)
Definition prototype_members : list string :=
  ["constructor"; "hasOwnProperty"; "isPrototypeOf"; "propertyIsEnumerable";
   "toLocaleString"; "toString"; "valueOf"; "__defineGetter__";
   "__defineSetter__"; "__lookupGetter__"; "__lookupSetter__"; "__proto__"].

Inductive Property (A : Type) : Type :=
| Own (a : A)
| Inherited (member : string)
| Absent.
Arguments Own {A} a.
Arguments Inherited {A} member.
Arguments Absent {A}.

(** [o[k]] for an object created as [{}] whose own properties are [o]:
    an own property first, then the prototype, else [undefined]. *)
Definition get {A : Type} (o : gmap string A) (k : string) : Property A :=
  match o !! k with
  | Some a => Own a
  | None => if decide (k ∈ prototype_members) then Inherited k else Absent
  end.

(** Calling an inherited member with one object argument: [__proto__] is
    not callable and the two [__define*__] members reject a missing
    accessor function; the others return a value. *)
Definition member_throws (member : string) : bool :=
  bool_decide (member ∈ ["__proto__"; "__defineGetter__"; "__defineSetter__"]).

End JsObject.

(* ===================================================================== *)
(** ** telegram_bot.ts: class TelegramBot *)
(* ===================================================================== *)

Definition Handler : Type := TelegramExecutionContext → M Response.

(** The own properties of [commands] and [events] are finite maps; both
    objects start as [{}]. *)
Record TelegramBot : Type := {
  token : string;
  bot_api : TelegramApi;
  bot_update : option TelegramUpdate;
  commands : gmap string Handler;
  events : gmap string Handler;
  commandList : list BotCommand;
  currentContext : option TelegramExecutionContext
}.

(** An incoming [Request]: its method, the path and the [command] search
    parameter of its URL, and what [request.json()] yields ([None] when the
    body is not JSON). *)
Record Request : Type := {
  req_method : string;
  pathname : string;
  search_command : option string;
  req_json : option TelegramUpdate
}.

(** What the promise returned by [handle] resolves to. [Foreign] is the
    value an inherited [Object.prototype] member returned: not a
    [Response]. *)
Inductive Resolved : Type :=
| Resp (r : Response)
| Foreign (member : string).

Module Bot.

(** [constructor(token, api = new TelegramApi(token))]; its console line
    is not recorded. *)
Definition new (token : string) (api : option TelegramApi) : TelegramBot :=
  {| token := token;
     bot_api := default (Api.new token) api;
     bot_update := None;
     commands := ∅;
     events := ∅;
     commandList := [];
     currentContext := None |}.

(** [onCommand(command, description, callback)]. The console line of a
    registration is not recorded. An assignment under the key [__proto__]
    makes the callback the prototype of [commands]: reading that key gives
    the callback back, which is what the entry stands for here; the members
    [commands] would then inherit from the callback are not modelled. *)
Definition onCommand (command description : string) (callback : Handler)
    (this : TelegramBot) : TelegramBot :=
  {| token := token this;
     bot_api := bot_api this;
     bot_update := bot_update this;
     commands := <[ command := callback ]> (commands this);
     events := events this;
     commandList :=
       commandList this
         ++ [{| bc_command := command; bc_description := description |}];
     currentContext := currentContext this |}.

(** [onEvent(event, callback)] *)
Definition onEvent (event : UpdateType) (callback : Handler)
    (this : TelegramBot) : TelegramBot :=
  {| token := token this;
     bot_api := bot_api this;
     bot_update := bot_update this;
     commands := commands this;
     events := <[ UpdateType_value event := callback ]> (events this);
     commandList := commandList this;
     currentContext := currentContext this |}.

(** [async initializeCommands()] *)
Definition initializeCommands (this : TelegramBot) : M unit :=
  match commandList this with
  | [] => ret tt
  | _ :: _ =>
      try_catch
        (let* response := Api.setMyCommands (bot_api this) (commandList this) in
         if ok response
         then console LLog "Successfully set bot commands."
         else console LError "Failed to set bot commands:")
        (λ _, console LError "Error setting bot commands:")
  end.

(** [await request.json()] *)
Definition request_json (request : Request) : M TelegramUpdate :=
  emit EvReadBody;;
  match req_json request with
  | Some update => ret update
  | None => throw (SyntaxError "Unexpected token")
  end.

(** Calling what a property read found on [Object.prototype]. *)
Definition call_inherited (member : string) : M Resolved :=
  if JsObject.member_throws member
  then throw (TypeError "not a function")
  else ret (Foreign member).

(** [ctx.command && this.commands[ctx.command]] *)
Definition command_lookup (this : TelegramBot)
    (ctx : TelegramExecutionContext) : JsObject.Property Handler :=
  match command ctx with
  | Some c =>
      if Js.truthy_str c then JsObject.get (commands this) c
      else JsObject.Absent
  | None => JsObject.Absent
  end.

(** Lines 417-431: the branch on [ctx.update_type]. *)
Definition dispatch (this : TelegramBot) (ctx : TelegramExecutionContext)
    : M Resolved :=
  match update_type ctx with
  | Some ut =>
      match command_lookup this ctx with
      | JsObject.Own callback =>
          console LLog ("Dispatching command: /" ++ Js.or_empty (command ctx));;
          let* r := callback ctx in ret (Resp r)
      | JsObject.Inherited member =>
          console LLog ("Dispatching command: /" ++ Js.or_empty (command ctx));;
          call_inherited member
      | JsObject.Absent =>
          match JsObject.get (events this) (UpdateType_value ut) with
          | JsObject.Own callback =>
              console LLog ("Dispatching event: " ++ UpdateType_value ut);;
              let* r := callback ctx in ret (Resp r)
          | JsObject.Inherited member =>
              console LLog ("Dispatching event: " ++ UpdateType_value ut);;
              call_inherited member
          | JsObject.Absent =>
              console LWarn "No handler found for:";;
              ret (Resp (new_Response "No handler for this update type" 400))
          end
      end
  | None =>
      console LWarn "Unhandled update type:";;
      ret (Resp (new_Response "Unhandled update type" 400))
  end.

Section Handle.

(** Modelled from the spec: [webhook.ts] is not part of the sources; the
    spec names webhook registration an external collaborator. Its
    constructor is taken to store its arguments, and [webhook.set()] is
    whatever the collaborator does. *)
Variable webhook_set : M Response.

(** [async handle(request)] *)
Definition handle (this : TelegramBot) (request : Request) : M Resolved :=
  try_catch
    (if String.eqb ("/" ++ token this) (pathname request)
     then
       if String.eqb (req_method request) "POST" then
         let* update := request_json request in
         console LLog "Received update:";;
         let* ctx := Ctx.new (token this) (bot_api this) update in
         dispatch this ctx
       else if String.eqb (req_method request) "GET" then
         match search_command request with
         | Some "set" => let* r := webhook_set in ret (Resp r)
         | _ => ret (Resp (new_Response "ok" 200))
         end
       else ret (Resp (new_Response "ok" 200))
     else ret (Resp (new_Response "ok" 200)))
    (λ _, console LError "Error handling request:";;
          ret (Resp (new_Response "Internal Server Error" 500))).

(** The fields [handle] assigns on the way: [update] and
    [currentContext], once the body of a POST to the token path has
    been read. *)
Definition after_handle (this : TelegramBot) (request : Request)
    : TelegramBot :=
  if String.eqb ("/" ++ token this) (pathname request)
     && String.eqb (req_method request) "POST"
  then
    match req_json request with
    | Some update =>
        {| token := token this;
           bot_api := bot_api this;
           bot_update := Some update;
           commands := commands this;
           events := events this;
           commandList := commandList this;
           currentContext :=
             Some (Ctx.make (token this) (bot_api this) update) |}
    | None => this
    end
  else this.

End Handle.

End Bot.

(* ===================================================================== *)
(** ** Reading runs *)
(* ===================================================================== *)

(** The world with further events recorded. *)
Definition logged (w : World) (es : list Event) : World :=
  {| limiter := limiter w; clock := clock w; network := network w;
     trace := trace w ++ es |}.

(** The events a method adds when run from [w]. *)
Definition events_of {A : Type} (m : M A) (w : World) : list Event :=
  drop (length (trace w)) (trace (snd (m w))).

Definition is_rate_limit (e : Event) : bool :=
  match e with EvRateLimit => true | _ => false end.

Definition is_fetch (e : Event) : bool :=
  match e with EvFetch _ => true | _ => false end.

(** How often the limiter was entered, how many requests went out. *)
Definition entries (es : list Event) : nat := length (filter is_rate_limit es).

Definition requests (es : list Event) : nat := length (filter is_fetch es).

(** Every request of the run has its own limiter entry before it: [armed]
    tells whether an entry is still unused. *)
Fixpoint gated_from (armed : bool) (es : list Event) : bool :=
  match es with
  | [] => true
  | EvRateLimit :: rest => gated_from true rest
  | EvFetch _ :: rest => armed && gated_from false rest
  | _ :: rest => gated_from armed rest
  end.

Definition gated (es : list Event) : bool := gated_from false es.

(** Calls that each enter the limiter twice in a row: the entry times of
    the calls, every one doubled. *)
Definition twice (ts : list Z) : list Z := t ← ts; [t; t].

(** A world to run examples in: a fresh window, no upstream. *)
Definition offline : World :=
  {| limiter := {| requestCount := 0; resetTime := 1000 |};
     clock := 0;
     network := λ _, Failed (FetchError "offline");
     trace := [] |}.

(** A world whose upstream knows one file: the metadata call answers with
    its path, and the download of that path answers with its content. *)
Definition file_server : World :=
  {| limiter := {| requestCount := 0; resetTime := 1000 |};
     clock := 0;
     network := λ r,
       match fr_query r with
       | Some _ =>
           Responded
             {| status := 200; body := "";
                json_of := Some {| ok := true;
                                   result := ResultFile "documents/file_7.txt";
                                   description := None |} |}
       | None =>
           if String.eqb (fr_url r)
                "https://api.telegram.org/file/botT/documents/file_7.txt"
           then Responded {| status := 200; body := "file content";
                             json_of := None |}
           else Failed (FetchError "not found")
       end;
     trace := [] |}.

(** A context for the update [u], of the bot with token [T]. *)
Definition ctx_of (u : TelegramUpdate) : TelegramExecutionContext :=
  Ctx.make "T" (Api.new "T") u.

(** An update that carries a message with the given text. *)
Definition text_update (t : string) : TelegramUpdate :=
  {| message := Some {| message_id := 7; chat := {| chat_id := 42 |};
                        text := Some t; photo := None; document := None |};
     business_message := None; inline_query := None;
     callback_query := None |}.

(** The answer of an upstream that refuses a call. *)
Definition refusal : Response :=
  {| status := 400; body := "";
     json_of := Some {| ok := false; result := ResultOther;
                        description := Some "Bad Request" |} |}.

(** A world whose upstream refuses every call. *)
Definition refusing : World :=
  {| limiter := {| requestCount := 0; resetTime := 1000 |};
     clock := 0;
     network := λ _, Responded refusal;
     trace := [] |}.

(** An update that carries a business message with the given text. *)
Definition business_update (t : string) : TelegramUpdate :=
  {| message := None;
     business_message :=
       Some {| bm_message_id := 8; bm_chat := {| chat_id := 43 |};
               bm_text := Some t; business_connection_id := "conn-1" |};
     inline_query := None; callback_query := None |}.

(** An update that carries an inline query. *)
Definition inline_update (q : string) : TelegramUpdate :=
  {| message := None; business_message := None;
     inline_query := Some {| iq_id := "1"; query := q |};
     callback_query := None |}.

(** The update [{}]: nothing to classify. *)
Definition empty_update : TelegramUpdate :=
  {| message := None; business_message := None; inline_query := None;
     callback_query := None |}.

(** A text of [n] letters. *)
Fixpoint letters (n : nat) : string :=
  match n with
  | O => EmptyString
  | S n' => String "a"%char (letters n')
  end.

(** A request that uploads [text] as a text file, with the fixed caption,
    to the [sendDocument] endpoint of [this]. *)
Definition is_text_file_upload (this : TelegramApi) (text : string)
    (r : FetchRequest) : Prop :=
  fr_url r = apiUrl this ++ "/sendDocument"
  ∧ fr_method r = POST
  ∧ ∃ form, fr_payload r = FormBody form
            ∧ form !! "document"
              = Some (FormFile text "text/plain" "document.txt")
            ∧ form !! "caption" = Some (FormString Ctx.LONG_TEXT_CAPTION).

(** A request that answers the inline query of [this] with the one article
    made of [text]. *)
Definition is_article_answer (this : TelegramExecutionContext) (text : string)
    (parse_mode : option ParseMode) (r : FetchRequest) : Prop :=
  fr_url r = apiUrl (api this) ++ "/answerInlineQuery"
  ∧ fr_method r = POST
  ∧ fr_payload r
    = JsonBody (<[ "results" :=
                     VResults [InlineQueryResultArticle "1" text text parse_mode] ]>
                  {[ "inline_query_id" := VStr (Ctx.inline_query_id this) ]}).

(** The requests among the events of a run. *)
Definition requests_of (es : list Event) : list FetchRequest :=
  omap (λ e, match e with EvFetch r => Some r | _ => None end) es.

Definition document_request (this : TelegramApi)
    (form : gmap string FormValue) : FetchRequest :=
  {| fr_url := apiUrl this ++ "/sendDocument"; fr_method := POST;
     fr_query := None; fr_payload := FormBody form |}.

(** No property of the object holds [undefined]. *)
Definition all_defined (o : Params) : Prop :=
  map_Forall (λ _ v, JsVal.is_undefined v = false) o.

(** Calling one handler on a context under the catch-all of [handle]: its
    response is the answer; when it throws, the error line and the 500. *)
Definition invoke (callback : Handler) (ctx : TelegramExecutionContext)
    : M Resolved :=
  λ w, match callback ctx w with
       | (Normal r, w') => (Normal (Resp r), w')
       | (Throw _, w') =>
           (Normal (Resp (new_Response "Internal Server Error" 500)),
            logged w' [EvConsole LError "Error handling request:"])
       end.

(** The registry [commands] still has the prototype of an object literal:
    nothing was registered under [__proto__], the one key whose assignment
    replaces the prototype instead of adding a property. *)
Definition default_prototype (this : TelegramBot) : Prop :=
  commands this !! "__proto__" = None.

(** The command of a context when it is there and not the empty string. *)
Definition nonempty_command (ctx : TelegramExecutionContext) : option string :=
  c ← command ctx; if Js.truthy_str c then Some c else None.

(** The command of a context names a member of [Object.prototype]. *)
Definition names_inherited_member (ctx : TelegramExecutionContext) : bool :=
  match nonempty_command ctx with
  | Some c => bool_decide (c ∈ JsObject.prototype_members)
  | None => false
  end.

(** A handler that answers with the given text. *)
Definition answering (text : string) : Handler :=
  λ _, ret (new_Response text 200).

(** A webhook collaborator that is never needed. *)
Definition no_webhook : M Response := throw (UserError "no webhook").

(** A POST of the update [u] to the path [path]. *)
Definition post_to (path : string) (u : TelegramUpdate) : Request :=
  {| req_method := "POST"; pathname := path; search_command := None;
     req_json := Some u |}.

(* ===================================================================== *)
(** ** The vocabulary of the properties *)
(* ===================================================================== *)

(** The kind of the first entry of [map] whose predicate holds, as a
    relation: the entries before it all fail. *)
Definition first_match (map : list (UpdateType * (TelegramUpdate → bool)))
    (update : TelegramUpdate) (k : UpdateType) : Prop :=
  ∃ before p after,
    map = (before ++ (k, p) :: after)%list
    ∧ p update = true
    ∧ Forall (λ e, e.2 update = false) before.

(** The six conditions in the words of the specification. *)
Module Spec.

Definition message_has_photo (u : TelegramUpdate) : bool :=
  match message u with
  | Some m => match photo m with Some _ => true | None => false end
  | None => false
  end.

Definition message_has_document (u : TelegramUpdate) : bool :=
  match message u with
  | Some m => match document m with Some _ => true | None => false end
  | None => false
  end.

Definition nonempty (s : string) : bool := negb (String.eqb s "").

Definition message_has_text (u : TelegramUpdate) : bool :=
  match message u with
  | Some m => match text m with Some t => nonempty t | None => false end
  | None => false
  end.

Definition inline_query_has_text (u : TelegramUpdate) : bool :=
  match inline_query u with
  | Some q => nonempty (query q)
  | None => false
  end.

Definition callback_query_has_id (u : TelegramUpdate) : bool :=
  match callback_query u with
  | Some q => nonempty (cq_id q)
  | None => false
  end.

Definition business_message_present (u : TelegramUpdate) : bool :=
  match business_message u with
  | Some _ => true
  | None => false
  end.

(** The ordered list, top to bottom. *)
Definition classify (u : TelegramUpdate) : option UpdateType :=
  if message_has_photo u then Some Photo
  else if message_has_document u then Some Document
  else if message_has_text u then Some Message
  else if inline_query_has_text u then Some Inline
  else if callback_query_has_id u then Some Callback
  else if business_message_present u then Some BusinessMessage
  else None.

End Spec.

(** No U+0020 in the string. *)
Fixpoint no_space (s : string) : bool :=
  match s with
  | EmptyString => true
  | String c r => negb (Ascii.eqb c " "%char) && no_space r
  end.

(** [tail] is empty or begins with U+0020. *)
Definition at_space (tail : string) : bool :=
  match tail with
  | EmptyString => true
  | String c _ => Ascii.eqb c " "%char
  end.

(** The white space characters of a text: space, tab, line feed, vertical
    tab, form feed, carriage return. *)
Definition is_whitespace (c : ascii) : bool :=
  Ascii.eqb c " "%char || Ascii.eqb c "009"%char || Ascii.eqb c "010"%char
  || Ascii.eqb c "011"%char || Ascii.eqb c "012"%char || Ascii.eqb c "013"%char.

(** The first white-space-delimited token of a string: its longest prefix
    free of white space. *)
Fixpoint first_token (s : string) : string :=
  match s with
  | EmptyString => EmptyString
  | String c r => if is_whitespace c then EmptyString else String c (first_token r)
  end.

(** Unfolds the plumbing of [M]. *)
Ltac run_m :=
  cbv beta iota zeta
    delta [bind try_catch ret throw emit console fetch json Date_now sleep
           get_limiter set_limiter];
  cbn [limiter clock network trace fst snd].

(** The world right after one [rateLimit()]. *)
Definition limited (w : World) : World := snd (Api.rateLimit w).

Definition limit_events (w : World) : list Event :=
  EvRateLimit ::
    match snd (RateLimit.step_nominal (clock w) (limiter w)) with
    | Some ms => [EvSleep ms]
    | None => []
    end.

Definition post_request (this : TelegramApi) (endpoint : string)
    (body : Params) : FetchRequest :=
  {| fr_url := apiUrl this +:+ "/" +:+ endpoint; fr_method := POST;
     fr_query := None; fr_payload := JsonBody body |}.

Definition get_request (this : TelegramApi) (endpoint : string)
    (params : Params) : FetchRequest :=
  {| fr_url := apiUrl this +:+ "/" +:+ endpoint; fr_method := GET;
     fr_query := Some params; fr_payload := NoBody |}.

(** What a JSON exchange after the limiter comes to: the decoded answer,
    or a logged error thrown on. *)
Definition exchange (req : FetchRequest) (failure : string) (w : World)
    : Completion TelegramApiResponse * World :=
  match network w req with
  | Responded r =>
      match json_of r with
      | Some data => (Normal data, logged w [EvFetch req])
      | None => (Throw (SyntaxError "Unexpected token"),
                 logged w [EvFetch req; EvConsole LError failure])
      end
  | Failed e => (Throw e, logged w [EvFetch req; EvConsole LError failure])
  end.

Definition is_error_line (e : Event) : bool :=
  match e with EvConsole LError _ => true | _ => false end.

(** The download request of [getFile] for a file path. *)
Definition file_request (token : string) (file_path : option string)
    : FetchRequest :=
  {| fr_url := "https://api.telegram.org/file/bot" ++ token ++ "/"
                 ++ Js.show_ostr file_path;
     fr_method := GET; fr_query := None; fr_payload := NoBody |}.

(** The three fields [sendDocument] appends only when they are truthy. *)
Definition optional_fields : list string :=
  ["caption"; "reply_to_message_id"; "business_connection_id"].

(** Registering a list of commands (name, description, handler) one after
    the other, as a chain of [onCommand] calls does. *)
Definition register_all (regs : list (string * string * Handler))
    (bot : TelegramBot) : TelegramBot :=
  foldl (λ b r, Bot.onCommand r.1.1 r.1.2 r.2 b) bot regs.

(** The registrations made under the name [c], in order. *)
Definition registered_under (c : string)
    (regs : list (string * string * Handler)) : list (string * string * Handler) :=
  filter (λ r, r.1.1 = c) regs.

(** The entry of the command list a registration adds. *)
Definition listed (r : string * string * Handler) : BotCommand :=
  {| bc_command := r.1.1; bc_description := r.1.2 |}.

(** The body of the request [setMyCommands] sends. *)
Definition commands_request (this : TelegramApi) (cs : list BotCommand)
    : FetchRequest :=
  post_request this "setMyCommands" {[ "commands" := VCommands cs ]}.

(** The plain answers of [handle]. *)
Definition ok_response : Resolved := Resp (new_Response "ok" 200).

Definition server_error : Resolved :=
  Resp (new_Response "Internal Server Error" 500).

(** The answer of [handle] to a failure inside it: the 500 and its console
    line. *)
Definition answered_500 (w : World) : Completion Resolved * World :=
  (Normal server_error, logged w [EvConsole LError "Error handling request:"]).

(** The kinds whose updates can carry a command. *)
Definition carries_command (ut : UpdateType) : bool :=
  match ut with
  | Message | BusinessMessage => true
  | _ => false
  end.

(** The request that answers the inline query of [this] with the single
    result [r]. *)
Definition inline_answer (this : TelegramExecutionContext)
    (r : InlineQueryResult) : FetchRequest :=
  post_request (api this) "answerInlineQuery"
    (<[ "results" := VResults [r] ]>
       {[ "inline_query_id" := VStr (Ctx.inline_query_id this) ]}).

(** A run that does nothing but warn. *)
Definition only_warns (msg : string) (w : World) : Completion unit * World :=
  (Normal tt, logged w [EvConsole LWarn msg]).

(** The keys [reply] sets itself in the body of a text message. *)
Definition message_keys : list string :=
  ["text"; "parse_mode"; "reply_to_message_id"; "chat_id"].

(** The keys of the body [reply] sends for a business message. *)
Definition business_keys : list string :=
  ["parse_mode"; "business_connection_id"; "text"; "chat_id"].

(** The keys [replyPhoto] sets itself in the body it sends. *)
Definition photo_keys : list string :=
  ["caption"; "photo"; "reply_to_message_id"; "chat_id"].

(** The keys [replyVideo] sets itself in the body it sends. *)
Definition video_keys : list string :=
  ["video"; "reply_to_message_id"; "chat_id"].

(* ===================================================================== *)
(** * Properties *)
(* ===================================================================== *)

Local Open Scope Z_scope.
Local Open Scope list_scope.

(** ** Classification *)

Lemma classify_with_first_match map update k :
  classify_with map update = Some k ↔ first_match map update k.
Proof.
  induction map as [|[t p] rest IH]; simpl.
  - split; [discriminate|].
    intros (before & q & after & Heq & _). by destruct before.
  - destruct (p update) eqn:Hp.
    + split.
      * intros [= <-]. exists [], p, rest. by repeat split.
      * intros (before & q & after & Heq & Hq & Hall).
        destruct before as [|[t' p'] before]; simplify_eq/=; [done|].
        apply Forall_cons in Hall as [Hno _]. simpl in Hno. congruence.
    + rewrite IH. split.
      * intros (before & q & after & -> & Hq & Hall).
        exists ((t, p) :: before), q, after. repeat split; auto.
      * intros (before & q & after & Heq & Hq & Hall).
        destruct before as [|[t' p'] before]; simplify_eq/=; [congruence|].
        apply Forall_cons in Hall as [_ Hall].
        by exists before, q, after.
Qed.

Lemma classify_with_none map update :
  classify_with map update = None ↔ Forall (λ e, e.2 update = false) map.
Proof.
  induction map as [|[t p] rest IH]; simpl.
  - split; auto.
  - destruct (p update) eqn:Hp.
    + split; [discriminate|]. intros [H _]%Forall_cons. simpl in H. congruence.
    + rewrite IH. split; [by constructor|]. by intros [_ ?]%Forall_cons.
Qed.

Lemma truthy_str_nonempty s : Js.truthy_str s = Spec.nonempty s.
Proof. by destruct s. Qed.

(** C2. Classification walks the fixed list Photo, Document, Message,
    Inline, Callback, BusinessMessage from the top and assigns the kind of
    the first entry whose condition holds, or none: it agrees with the
    ordered list of the specification on every update, a kind is assigned
    exactly when it is that first match (so never two), and an update whose
    message carries both a photo and a text is Photo whatever else it
    holds. *)
Theorem classify_first_match_in_order :
  ∀ update : TelegramUpdate,
    classify update = Spec.classify update
    ∧ (∀ k, classify update = Some k ↔ first_match updateTypeMap update k)
    ∧ (∀ (id : Z) (c : Chat) (t : string) (ph : list PhotoSize)
         (doc : option TelegramDocument) bm iq cq,
         classify
           {| message := Some {| message_id := id; chat := c; text := Some t;
                                 photo := Some ph; document := doc |};
              business_message := bm; inline_query := iq;
              callback_query := cq |} = Some Photo).
Proof.
  intros update. split; [|split].
  - destruct update as [[[id c [[|? ?]|] [ph|] [doc|]]|] [bm|]
                          [[iq [|? ?]]|] [[[|? ?]]|]]; reflexivity.
  - intros k. apply classify_with_first_match.
  - reflexivity.
Qed.

(** ** Command extraction *)

Lemma split_space_nonempty s : Js.split_space s ≠ [].
Proof. destruct s as [|c r]; simpl; [done|]. by repeat case_match. Qed.

Lemma head_split_space s c :
  head (Js.split_space s) = Some c
  ↔ ∃ tail, s = c +:+ tail ∧ no_space c = true ∧ at_space tail = true.
Proof.
  revert c. induction s as [|a r IH]; intros c; simpl.
  - split.
    + intros [= <-]. by exists "".
    + intros (tail & Heq & _ & _). destruct c; [done|discriminate].
  - destruct (Ascii.eqb a " ") eqn:Ha; simpl.
    + split.
      * intros [= <-]. exists (String a r). simpl. by rewrite Ha.
      * intros (tail & Heq & Hc & Ht). destruct c as [|a' c']; [done|].
        simpl in Heq, Hc. injection Heq as <- _.
        apply andb_true_iff in Hc as [Hc _]. apply negb_true_iff in Hc.
        congruence.
    + destruct (Js.split_space r) as [|p ps] eqn:Hsp;
        [by apply split_space_nonempty in Hsp|].
      simpl.
      split.
      * intros [= <-]. destruct (proj1 (IH p) eq_refl) as (tail & -> & Hp & Ht).
        exists tail. simpl. by rewrite Ha, Hp.
      * intros (tail & Heq & Hc & Ht). destruct c as [|a' c'].
        -- assert (tail = String a r) as -> by (symmetry; exact Heq).
           simpl in Ht. congruence.
        -- simpl in Heq, Hc. injection Heq as <- ->.
           apply andb_true_iff in Hc as [_ Hc].
           assert (Some p = Some c') as [= ->]; [|done].
           apply (IH c'). by exists tail.
Qed.

Lemma startsWith_slash_iff s :
  Js.startsWith_slash s = true ↔ ∃ rest, s = "/" +:+ rest.
Proof.
  destruct s as [|a r]; simpl.
  - split; [done|]. by intros [? ?].
  - rewrite Ascii.eqb_eq. split.
    + intros ->. by exists r.
    + by intros [rest [= -> _]].
Qed.

(** C5, as the code has it. The command of a context is defined exactly
    when the kind is Message or BusinessMessage and the source text starts
    with a slash; it is then the text after the slash up to the first
    space character U+0020 (no other white space ends it), unchanged in
    case and with nothing stripped; for every other kind and every text
    that does not start with a slash it is absent. The source text of a
    Message is the message text. *)
Theorem command_is_text_up_to_first_space :
  ∀ (tok : string) (a : TelegramApi) (u : TelegramUpdate),
    let ctx := Ctx.make tok a u in
    let is_message :=
      update_type ctx = Some Message ∨ update_type ctx = Some BusinessMessage in
    (is_Some (command ctx)
       ↔ is_message ∧ ∃ rest, Ctx.messageText u = "/" +:+ rest)
    ∧ (∀ c, command ctx = Some c
         ↔ is_message
           ∧ ∃ tail, Ctx.messageText u = "/" +:+ c +:+ tail
                     ∧ no_space c = true ∧ at_space tail = true)
    ∧ (update_type ctx = Some Message
         ↔ classify u = Some Message
           ∧ message_text u = Some (Ctx.messageText u)).
Proof.
  intros tok a u ctx is_message.
  assert (Hcmd : ∀ c, command ctx = Some c
         ↔ is_message
           ∧ ∃ tail, Ctx.messageText u = "/" +:+ c +:+ tail
                     ∧ no_space c = true ∧ at_space tail = true).
  { intros c. subst ctx is_message. simpl. unfold Ctx.extract_command.
    destruct (classify u) as [[]|] eqn:Hk;
      try (split; [discriminate|]; intros [[?|?] _]; discriminate).
    all: destruct (Js.startsWith_slash (Ctx.messageText u)) eqn:Hs.
    all: try (apply startsWith_slash_iff in Hs as [rest Hs]; rewrite Hs;
              change (Js.slice1 ("/" +:+ rest)) with rest;
              rewrite head_split_space).
    all: try (split;
              [ intros (tail & -> & ? & ?); split; [auto|by exists tail]
              | intros (_ & tail & Heq & ? & ?); exists tail;
                split; [exact (f_equal Js.slice1 Heq)|done] ]).
    all: split; [discriminate|]; intros (_ & tail & Heq & _).
    all: assert (Js.startsWith_slash (Ctx.messageText u) = true)
           by (apply startsWith_slash_iff; eauto); congruence. }
  split; [|split; [exact Hcmd|]].
  - split.
    + intros [c Hc]. apply Hcmd in Hc as (Hm & tail & Heq & _).
      split; [done|]. by exists (c +:+ tail).
    + intros (Hm & rest & Heq). subst ctx is_message. simpl in *.
      unfold Ctx.extract_command.
      assert (Js.startsWith_slash (Ctx.messageText u) = true) as ->
        by (apply startsWith_slash_iff; eauto).
      destruct (Js.split_space (Js.slice1 (Ctx.messageText u))) eqn:Hsp;
        [by apply split_space_nonempty in Hsp|].
      destruct Hm as [-> | ->]; simpl; eauto.
  - subst ctx. simpl. split; [|by intros [? _]].
    intros Hk. split; [done|].
    unfold Ctx.messageText, Js.or_ostr.
    destruct u as [[[id c [[|? ?]|] [ph|] [doc|]]|] [bm|]
                     [[iq [|? ?]]|] [[[|? ?]]|]]; try discriminate Hk;
      reflexivity.
Qed.

(** C5 as stated fails: a line feed is white space, yet it does not end the
    command; the command of ["/start\nnow"] is ["start\nnow"], not
    ["start"]. *)
Lemma command_not_whitespace_delimited :
  let txt := "/start" +:+ String "010"%char "now" in
  let u := {| message := Some {| message_id := 7; chat := {| chat_id := 42 |};
                                 text := Some txt; photo := None;
                                 document := None |};
              business_message := None; inline_query := None;
              callback_query := None |} in
  let ctx := Ctx.make "T" (Api.new "T") u in
  update_type ctx = Some Message
  ∧ first_token (Js.slice1 txt) = "start"
  ∧ command ctx = Some ("start" +:+ String "010"%char "now")
  ∧ command ctx ≠ Some (first_token (Js.slice1 txt)).
Proof. simpl. repeat split; try reflexivity. discriminate. Qed.

(** ** The rate limiter *)

Lemma step_cases now woke l :
  RateLimit.step now woke l =
    if Z.ltb (resetTime l) now
    then ({| requestCount := 1; resetTime := now + 1000 |}, None)
    else if Z.leb 30 (requestCount l)
         then ({| requestCount := 1; resetTime := woke + 1000 |},
               Some (resetTime l - now))
         else ({| requestCount := requestCount l + 1; resetTime := resetTime l |},
               None).
Proof.
  unfold RateLimit.step, RateLimit.refresh, RateLimit.full, RateLimit.count,
    RateLimit.restart, RateLimit.waitTime.
  destruct (Z.ltb (resetTime l) now); simpl; [done|].
  by destruct (Z.leb 30 (requestCount l)).
Qed.

Lemma step_count_bounds now woke l :
  requestCount (fst (RateLimit.step now woke l)) ≤ 30.
Proof.
  rewrite step_cases.
  destruct (Z.ltb_spec (resetTime l) now); simpl; [lia|].
  destruct (Z.leb_spec 30 (requestCount l)); simpl; lia.
Qed.

(** Calls that enter an open window of end [R] with [n] calls counted so
    far, while it has room for all of them, each proceed at once. *)
Lemma run_within_window times R n :
  Forall (λ t, t ≤ R) times →
  0 ≤ n → n + Z.of_nat (length times) ≤ 30 →
  RateLimit.run times {| requestCount := n; resetTime := R |}
  = ({| requestCount := n + Z.of_nat (length times); resetTime := R |},
     replicate (length times) None).
Proof.
  revert n. induction times as [|t times IH]; intros n Hall Hn Hroom; simpl.
  - do 2 f_equal. lia.
  - apply Forall_cons in Hall as [Ht Hall]. simpl in Hroom.
    unfold RateLimit.step_nominal. rewrite step_cases. simpl.
    destruct (Z.ltb_spec R t); [lia|].
    destruct (Z.leb_spec 30 n); [lia|].
    rewrite IH by (auto; lia). do 2 f_equal. lia.
Qed.

(** A window filled by thirty calls makes the next one wait until its end;
    the next window opens there. *)
Lemma run_window_overflow times R t31 :
  length times = 30%nat →
  Forall (λ t, t ≤ R) times →
  t31 ≤ R →
  RateLimit.run (times ++ [t31])%list {| requestCount := 0; resetTime := R |}
  = ({| requestCount := 1; resetTime := R + 1000 |},
     (replicate 30 None ++ [Some (R - t31)])%list).
Proof.
  intros Hlen Hall Ht31.
  assert (Hgen : ∀ n, 0 ≤ n → n + Z.of_nat (length times) = 30 →
    Forall (λ t, t ≤ R) times →
    RateLimit.run (times ++ [t31])%list {| requestCount := n; resetTime := R |}
    = ({| requestCount := 1; resetTime := R + 1000 |},
       (replicate (length times) None ++ [Some (R - t31)])%list)).
  { clear Hlen Hall.
    induction times as [|t ts IH]; intros n Hn Hsum Hts; simpl.
    - unfold RateLimit.step_nominal. rewrite step_cases. simpl in *.
      destruct (Z.ltb_spec R t31); [lia|].
      destruct (Z.leb_spec 30 n); [|lia].
      unfold RateLimit.refresh, RateLimit.waitTime, RateLimit.timer_fires.
      simpl. destruct (Z.ltb_spec R t31); [lia|]. simpl.
      do 3 f_equal. lia.
    - apply Forall_cons in Hts as [Ht Hts]. simpl in Hsum.
      unfold RateLimit.step_nominal. rewrite step_cases. simpl.
      destruct (Z.ltb_spec R t); [lia|].
      destruct (Z.leb_spec 30 n); [lia|].
      rewrite IH by (auto; lia). done. }
  rewrite (Hgen 0) by (auto; lia). by rewrite Hlen.
Qed.

(** The method is the step with a timer that fires on time: it leaves the
    limiter and the clock as the step says and records its entry and its
    wait. *)
Lemma rateLimit_runs w :
  Api.rateLimit w =
    let (l', d) := RateLimit.step_nominal (clock w) (limiter w) in
    (Normal tt,
     {| limiter := l';
        clock := match d with
                 | Some ms => RateLimit.timer_fires (clock w) ms
                 | None => clock w
                 end;
        network := network w;
        trace := trace w ++ EvRateLimit ::
                   match d with Some ms => [EvSleep ms] | None => [] end |}).
Proof.
  unfold Api.rateLimit, RateLimit.step_nominal, RateLimit.step, bind, emit,
    Date_now, get_limiter, set_limiter, sleep, ret; simpl.
  destruct (RateLimit.full (RateLimit.refresh (clock w) (limiter w))); simpl.
  - by rewrite <- app_assoc.
  - done.
Qed.

(** C3, as the code has it. A call entering at [now]: when [now] is
    strictly past the window end the window restarts at [now] (count 0,
    end [now + 1000]) and the call is counted in it; otherwise, when the
    count has reached 30, the caller waits for [window end - now] and a
    fresh window starts when it wakes; otherwise the count goes up by one
    and the caller proceeds at once. After any call the count is at most
    30. From a fresh window, thirty calls entering no later than its
    end all proceed at once and fill it, and the thirty-first waits until
    the window end and opens the next window there. The method
    [rateLimit] is this step. *)
Theorem rateLimit_fixed_window :
  ∀ (l : Limiter) (now woke R : Z) (times : list Z) (t31 : Z) (w : World),
    length times = 30%nat →
    Forall (λ t, t ≤ R) times →
    t31 ≤ R →
    RateLimit.step now woke l
      = (if Z.ltb (resetTime l) now
         then ({| requestCount := 1; resetTime := now + 1000 |}, None)
         else if Z.leb 30 (requestCount l)
              then ({| requestCount := 1; resetTime := woke + 1000 |},
                    Some (resetTime l - now))
              else ({| requestCount := requestCount l + 1;
                       resetTime := resetTime l |}, None))
    ∧ requestCount (fst (RateLimit.step now woke l)) ≤ 30
    ∧ RateLimit.run times {| requestCount := 0; resetTime := R |}
      = ({| requestCount := 30; resetTime := R |}, replicate 30 None)
    ∧ RateLimit.run (times ++ [t31])%list {| requestCount := 0; resetTime := R |}
      = ({| requestCount := 1; resetTime := R + 1000 |},
         (replicate 30 None ++ [Some (R - t31)])%list)
    ∧ limiter (snd (Api.rateLimit w))
      = fst (RateLimit.step_nominal (clock w) (limiter w)).
Proof.
  intros l now woke R times t31 w Hlen Hall Ht31.
  split; [apply step_cases|]. split; [apply step_count_bounds|].
  assert (Hrun := run_within_window times R 0 Hall ltac:(lia) ltac:(lia)).
  rewrite Hlen in Hrun. simpl in Hrun.
  split; [exact Hrun|]. split.
  - by apply run_window_overflow.
  - rewrite rateLimit_runs. by destruct (RateLimit.step_nominal _ _).
Qed.

Lemma rateLimit_fixed_window_witness :
  RateLimit.run (replicate 30 0 ++ [0])%list {| requestCount := 0; resetTime := 1000 |}
  = ({| requestCount := 1; resetTime := 2000 |},
     (replicate 30 None ++ [Some 1000])%list).
Proof.
  refine (proj1 (proj2 (proj2 (proj2
    (rateLimit_fixed_window {| requestCount := 0; resetTime := 1000 |}
       0 0 1000 (replicate 30 0) 0
       {| limiter := {| requestCount := 0; resetTime := 1000 |}; clock := 0;
          network := λ _, Failed (FetchError "offline"); trace := [] |}
       _ _ _))))).
  - reflexivity.
  - repeat constructor; lia.
  - lia.
Defined.

(** C3 as stated fails at the window end itself: a call entering exactly
    at [resetTime] with room left is counted in the old window, which is
    not reset. *)
Lemma no_reset_at_window_end :
  let l := {| requestCount := 5; resetTime := 1000 |} in
  resetTime l ≤ 1000
  ∧ RateLimit.step 1000 1000 l
    = ({| requestCount := 6; resetTime := 1000 |}, None)
  ∧ fst (RateLimit.step 1000 1000 l)
    ≠ RateLimit.count {| requestCount := 0; resetTime := 1000 + 1000 |}
  ∧ fst (RateLimit.step 1000 1000 l)
    ≠ {| requestCount := 0; resetTime := 1000 + 1000 |}.
Proof. simpl. repeat split; try done; lia. Qed.

(** ** The outbound client *)

Lemma events_of_trace {A : Type} (m : M A) w es :
  trace (snd (m w)) = trace w ++ es → events_of m w = es.
Proof. intros Hm. unfold events_of. rewrite Hm. apply drop_app_length. Qed.

Lemma rateLimit_normal w : Api.rateLimit w = (Normal tt, limited w).
Proof.
  unfold limited. rewrite rateLimit_runs.
  by destruct (RateLimit.step_nominal _ _).
Qed.

Lemma limited_network w : network (limited w) = network w.
Proof.
  unfold limited. rewrite rateLimit_runs.
  by destruct (RateLimit.step_nominal _ _).
Qed.

Lemma limited_trace w : trace (limited w) = trace w ++ limit_events w.
Proof.
  unfold limited, limit_events. rewrite rateLimit_runs.
  by destruct (RateLimit.step_nominal _ _).
Qed.

Lemma limited_limiter w :
  limiter (limited w) = fst (RateLimit.step_nominal (clock w) (limiter w)).
Proof.
  unfold limited. rewrite rateLimit_runs.
  by destruct (RateLimit.step_nominal _ _).
Qed.

Lemma logged_trace w es : trace (logged w es) = trace w ++ es.
Proof. done. Qed.

Lemma post_runs this endpoint body w :
  Api.post this endpoint body w
  = exchange (post_request this endpoint body)
      ("Error in POST " +:+ endpoint +:+ ":") (limited w).
Proof.
  unfold Api.post, bind at 1. rewrite rateLimit_normal.
  unfold exchange, post_request, logged. run_m.
  destruct (network (limited w) _) as [r|e]; [destruct (json_of r)|];
    run_m; by rewrite <- ?app_assoc.
Qed.

Lemma get_runs this endpoint params w :
  Api.get this endpoint params w
  = exchange (get_request this endpoint params)
      ("Error in GET " +:+ endpoint +:+ ":") (limited w).
Proof.
  unfold Api.get, bind at 1. rewrite rateLimit_normal.
  unfold exchange, get_request, logged. run_m.
  destruct (network (limited w) _) as [r|e]; [destruct (json_of r)|];
    run_m; by rewrite <- ?app_assoc.
Qed.

(** An exchange adds one request and nothing else but a console line. *)
Lemma exchange_world req failure w :
  ∃ tail, snd (exchange req failure w) = logged w (EvFetch req :: tail)
          ∧ (tail = [] ∨ tail = [EvConsole LError failure]).
Proof.
  unfold exchange. destruct (network w req) as [r|e];
    [destruct (json_of r)|]; simpl; eauto.
Qed.

(** Every operation that goes through [post] enters the limiter once and
    only then sends its one request. *)
Lemma post_gated this endpoint body w :
  gated (events_of (Api.post this endpoint body) w) = true
  ∧ entries (events_of (Api.post this endpoint body) w) = 1%nat
  ∧ requests (events_of (Api.post this endpoint body) w) = 1%nat.
Proof.
  destruct (exchange_world (post_request this endpoint body)
              ("Error in POST " +:+ endpoint +:+ ":") (limited w))
    as (tail & Hw & Htail).
  assert (Hev : events_of (Api.post this endpoint body) w
                = limit_events w ++ EvFetch (post_request this endpoint body) :: tail).
  { apply events_of_trace.
    by rewrite post_runs, Hw, logged_trace, limited_trace, <- app_assoc. }
  rewrite Hev. unfold limit_events, gated, entries, requests.
  destruct (snd (RateLimit.step_nominal _ _)); destruct Htail as [-> | ->];
    done.
Qed.

(** The operations that are a [post] under another name. *)
Lemma post_operations_gated this params w :
  gated (events_of (Api.sendMessage this params) w) = true
  ∧ gated (events_of (Api.sendPhoto this params) w) = true
  ∧ gated (events_of (Api.sendVideo this params) w) = true
  ∧ gated (events_of (Api.sendChatAction this params) w) = true
  ∧ gated (events_of (Api.answerInline this params) w) = true
  ∧ gated (events_of (Api.answerCallback this params) w) = true.
Proof. repeat split; apply post_gated. Qed.

(** A document given by reference goes through [post] as well. *)
Lemma sendDocument_reference_gated this params w :
  JsVal.is_blob (JsVal.get params "document") = false →
  gated (events_of (Api.sendDocument this params) w) = true.
Proof.
  intros Hdoc. unfold Api.sendDocument.
  destruct (JsVal.get params "document"); try discriminate Hdoc;
    apply post_gated.
Qed.

(** C7 fails in the code: a document given as a Blob is sent by a direct
    [fetch]; the limiter is never entered, so the one request of the run
    goes out ungated, whatever the upstream answers and whatever the state
    of the limiter. The operations built on [post], the document by
    reference among them, are gated. *)
Theorem sendDocument_blob_bypasses_limiter :
  ∀ (this : TelegramApi) (chat content : string) (w : World),
    let params : Params :=
      <[ "document" := VBlob content "text/plain" ]>
        {[ "chat_id" := VStr chat ]} in
    let es := events_of (Api.sendDocument this params) w in
    entries es = 0%nat
    ∧ requests es = 1%nat
    ∧ gated es = false
    ∧ limiter (snd (Api.sendDocument this params w)) = limiter w
    ∧ gated (events_of (Api.sendDocument this {[ "chat_id" := VStr chat;
                 "document" := VStr content ]}) w) = true
    ∧ gated (events_of (Api.sendMessage this params) w) = true.
Proof.
  intros this chat content w params es.
  assert (Hrun : ∃ tail,
    snd (Api.sendDocument this params w)
    = logged w (EvFetch {| fr_url := apiUrl this +:+ "/sendDocument";
                           fr_method := POST; fr_query := None;
                           fr_payload := FormBody
                             (<[ "document" := FormFile content "text/plain"
                                                  "document.txt" ]>
                                {[ "chat_id" := FormString chat ]}) |} :: tail)
    ∧ (tail = [] ∨ tail = [EvConsole LError "Error in sendDocument with Blob:"])).
  { unfold Api.sendDocument, params.
    change (JsVal.get _ "document") with (VBlob content "text/plain").
    replace (Api.extra_fields _) with (Some (∅ : gmap string FormValue))
      by (symmetry; vm_compute; reflexivity).
    cbv beta iota. run_m.
    match goal with
    | |- context [network w ?r] => destruct (network w r) as [r'|e]
    end; [destruct (json_of r')|]; run_m; unfold logged;
      rewrite <- ?app_assoc; eexists; (split; [reflexivity|]); auto. }
  destruct Hrun as (tail & Hrun & Htail).
  assert (Hes : es = EvFetch {| fr_url := apiUrl this +:+ "/sendDocument";
                           fr_method := POST; fr_query := None;
                           fr_payload := FormBody
                             (<[ "document" := FormFile content "text/plain"
                                                  "document.txt" ]>
                                {[ "chat_id" := FormString chat ]}) |} :: tail).
  { apply events_of_trace. by rewrite Hrun. }
  rewrite Hes, Hrun.
  repeat split; try (destruct Htail as [-> | ->]; reflexivity).
  - by apply sendDocument_reference_gated.
  - apply post_gated.
Qed.

(** ** Two entries per call *)

Lemma entries_app es es' : entries (es ++ es') = (entries es + entries es')%nat.
Proof. unfold entries. by rewrite filter_app, length_app. Qed.

Lemma entries_limit_events w : entries (limit_events w) = 1%nat.
Proof.
  unfold limit_events. by destruct (snd (RateLimit.step_nominal _ _)).
Qed.

Lemma requests_limit_events w : requests (limit_events w) = 0%nat.
Proof.
  unfold limit_events. by destruct (snd (RateLimit.step_nominal _ _)).
Qed.

(** Two entries in a row are two steps of the limiter, the second at the
    time the first one left the clock at. *)
Lemma limited_twice w :
  limiter (limited (limited w))
  = fst (RateLimit.run [clock w; clock (limited w)] (limiter w)).
Proof.
  rewrite (limited_limiter (limited w)), limited_limiter. simpl.
  destruct (RateLimit.step_nominal (clock w) (limiter w)) as [l1 d1]. simpl.
  by destruct (RateLimit.step_nominal (clock (limited w)) l1).
Qed.

Lemma exchange_limiter req failure w :
  limiter (snd (exchange req failure w)) = limiter w.
Proof.
  destruct (exchange_world req failure w) as (tail & -> & _). done.
Qed.

Lemma setMyCommands_runs this commands w :
  Api.setMyCommands this commands w
  = exchange (post_request this "setMyCommands"
                {[ "commands" := VCommands commands ]})
      "Error in POST setMyCommands:" (limited (limited w)).
Proof.
  unfold Api.setMyCommands, bind. rewrite rateLimit_normal.
  by rewrite post_runs.
Qed.

(** [getFile] with a parameter object that holds a non-empty id. *)
Lemma getFile_params_runs this file_id token w :
  Js.truthy_str file_id = true →
  ∃ tail,
    snd (Api.getFile this (Api.GetFileParams file_id) token w)
    = logged (limited (limited w)) tail
    ∧ entries tail = 0%nat.
Proof.
  intros Hid. unfold Api.getFile, bind at 1. rewrite rateLimit_normal.
  cbn [Api.arg_file_id JsVal.truthy]. rewrite Hid. cbn [negb].
  unfold bind. rewrite get_runs. unfold exchange.
  destruct (network (limited (limited w)) _) as [r|e];
    [destruct (json_of r) as [data|]|]; cbn [fst snd].
  2,3: by eexists.
  destruct (ok data); unfold logged; run_m.
  - match goal with
    | |- context [network _ ?q] =>
        destruct (network (limited (limited w)) q)
    end; run_m; eexists; rewrite <- ?app_assoc; (split; [reflexivity|done]).
  - eexists. rewrite <- ?app_assoc. split; [reflexivity|done].
Qed.

Lemma run_app times times' l :
  RateLimit.run (times ++ times') l
  = let (l1, ds) := RateLimit.run times l in
    let (l2, ds') := RateLimit.run times' l1 in
    (l2, ds ++ ds').
Proof.
  revert l. induction times as [|t times IH]; intros l; simpl.
  - by destruct (RateLimit.run times' l).
  - destruct (RateLimit.step_nominal t l) as [l' d]. rewrite IH.
    destruct (RateLimit.run times l') as [l1 ds].
    by destruct (RateLimit.run times' l1).
Qed.

Lemma length_twice ts : length (twice ts) = (2 * length ts)%nat.
Proof.
  unfold twice. induction ts as [|t ts IH]; [done|].
  change (length (t :: t :: (ts ≫= λ t, [t; t]))
          = (2 * S (length ts))%nat).
  simpl length. rewrite IH. lia.
Qed.

Lemma Forall_twice (P : Z → Prop) ts : Forall P ts → Forall P (twice ts).
Proof.
  unfold twice. induction 1 as [|t ts Ht Hts IH]; [constructor|].
  change (Forall P (t :: t :: (ts ≫= λ t, [t; t]))). by repeat constructor.
Qed.

(** C10, as the code has it. [setMyCommands], and [getFile] when its
    parameter object holds a non-empty [file_id], enter the limiter twice:
    once in the operation, once more in [post] or [get]; the limiter ends
    where two steps in a row leave it. So fifteen such calls entering a
    fresh window fill it without waiting, and the first entry of a
    sixteenth has to wait for the window end, where its second entry is
    counted in the next window. *)
Theorem setMyCommands_getFile_enter_twice :
  ∀ (this : TelegramApi) (commands : list BotCommand) (file_id token : string)
    (w : World) (ts : list Z) (R t16 : Z),
    Js.truthy_str file_id = true →
    length ts = 15%nat →
    Forall (λ t, t ≤ R) ts →
    t16 ≤ R →
    entries (events_of (Api.setMyCommands this commands) w) = 2%nat
    ∧ entries (events_of (Api.getFile this (Api.GetFileParams file_id) token) w)
      = 2%nat
    ∧ limiter (snd (Api.setMyCommands this commands w))
      = fst (RateLimit.run [clock w; clock (limited w)] (limiter w))
    ∧ limiter (snd (Api.getFile this (Api.GetFileParams file_id) token w))
      = fst (RateLimit.run [clock w; clock (limited w)] (limiter w))
    ∧ RateLimit.run (twice ts) {| requestCount := 0; resetTime := R |}
      = ({| requestCount := 30; resetTime := R |}, replicate 30 None)
    ∧ RateLimit.run (twice ts ++ [t16; R]) {| requestCount := 0; resetTime := R |}
      = ({| requestCount := 2; resetTime := R + 1000 |},
         replicate 30 None ++ [Some (R - t16); None]).
Proof.
  intros this commands file_id token w ts R t16 Hid Hlen Hall Ht16.
  assert (Hlen2 : length (twice ts) = 30%nat)
    by (by rewrite length_twice, Hlen).
  assert (Hall2 := Forall_twice _ _ Hall).
  repeat split.
  - destruct (exchange_world (post_request this "setMyCommands"
                {[ "commands" := VCommands commands ]})
                "Error in POST setMyCommands:" (limited (limited w)))
      as (tail & Hw & Htail).
    rewrite (events_of_trace _ w
               (limit_events w ++ limit_events (limited w)
                  ++ EvFetch (post_request this "setMyCommands"
                                {[ "commands" := VCommands commands ]}) :: tail)).
    + rewrite !entries_app, !entries_limit_events.
      by destruct Htail as [-> | ->].
    + by rewrite setMyCommands_runs, Hw, logged_trace, !limited_trace,
        <- !app_assoc.
  - destruct (getFile_params_runs this file_id token w Hid)
      as (tail & Hw & Hent).
    rewrite (events_of_trace _ w
               (limit_events w ++ limit_events (limited w) ++ tail)).
    + by rewrite !entries_app, !entries_limit_events, Hent.
    + by rewrite Hw, logged_trace, !limited_trace, <- !app_assoc.
  - by rewrite setMyCommands_runs, exchange_limiter, limited_twice.
  - destruct (getFile_params_runs this file_id token w Hid)
      as (tail & -> & _). apply limited_twice.
  - by rewrite (run_within_window (twice ts) R 0 Hall2), Hlen2 by lia.
  - replace (twice ts ++ [t16; R]) with ((twice ts ++ [t16]) ++ [R])
      by (by rewrite <- app_assoc).
    rewrite run_app, (run_window_overflow (twice ts) R t16 Hlen2 Hall2 Ht16).
    simpl. unfold RateLimit.step_nominal. rewrite step_cases. simpl.
    destruct (Z.ltb_spec (R + 1000) R); [lia|]. done.
Qed.

Lemma setMyCommands_getFile_enter_twice_witness :
  entries (events_of (Api.setMyCommands (Api.new "T") []) offline) = 2%nat.
Proof.
  refine (proj1 (setMyCommands_getFile_enter_twice (Api.new "T") [] "file_7" "T"
                   offline (replicate 15 0) 1000 0 _ _ _ _)).
  - reflexivity.
  - reflexivity.
  - repeat constructor; lia.
  - lia.
Defined.

(** C10 as stated fails for [getFile]: with an empty [file_id] it returns
    after its own entry; [get] and its entry are never reached. The same
    holds for every call that comes from the execution context, which
    passes the id as a bare string. *)
Lemma getFile_empty_id_enters_once :
  entries (events_of (Api.getFile (Api.new "T") (Api.GetFileParams "") "T")
             offline) = 1%nat
  ∧ fst (Api.getFile (Api.new "T") (Api.GetFileParams "") "T" offline)
    = Normal (new_Response "file_id is required" 400)
  ∧ requestCount
      (limiter (snd (Api.getFile (Api.new "T") (Api.GetFileParams "") "T"
                       offline))) = 1
  ∧ entries (events_of (Ctx.getFile (ctx_of (text_update "hi")) "file_7")
               offline) = 1%nat.
Proof. repeat split; vm_compute; reflexivity. Qed.

(** ** File retrieval through the context *)

(** C8 fails in the code: the context hands the bare string to the client,
    which reads [params.file_id] off it, finds nothing, and answers 400
    ["file_id is required"] for every id, in every world, without any
    request: neither the metadata call nor the download takes place. Given
    the parameter object its signature asks for, the client does resolve
    the same id in two requests and returns the content. *)
Theorem context_getFile_never_fetches :
  ∀ (this : TelegramExecutionContext) (file_id : string) (w : World),
    Ctx.getFile this file_id w
      = (Normal (new_Response "file_id is required" 400), limited w)
    ∧ requests (events_of (Ctx.getFile this file_id) w) = 0%nat
    ∧ fst (Ctx.getFile (ctx_of (text_update "hi")) "file_7" file_server)
      = Normal (new_Response "file_id is required" 400)
    ∧ fst (Api.getFile (Api.new "T") (Api.GetFileParams "file_7") "T" file_server)
      = Normal {| status := 200; body := "file content"; json_of := None |}
    ∧ requests (events_of (Api.getFile (Api.new "T")
                             (Api.GetFileParams "file_7") "T") file_server)
      = 2%nat.
Proof.
  intros this file_id w.
  assert (Hrun : Ctx.getFile this file_id w
      = (Normal (new_Response "file_id is required" 400), limited w)).
  { unfold Ctx.getFile, Api.getFile, bind. by rewrite rateLimit_normal. }
  split; [exact Hrun|]. split.
  - rewrite (events_of_trace _ w (limit_events w)).
    + apply requests_limit_events.
    + rewrite Hrun. apply limited_trace.
  - repeat split; vm_compute; reflexivity.
Qed.

(** ** The reply channel: what reaches the caller *)

(** An upstream that cannot be reached makes every [post] throw, after its
    console line. *)
Lemma post_unreachable this endpoint body w e :
  (∀ r, network w r = Failed e) →
  Api.post this endpoint body w
  = (Throw e,
     logged (limited w)
       [EvFetch (post_request this endpoint body);
        EvConsole LError ("Error in POST " +:+ endpoint +:+ ":")]).
Proof.
  intros Hnet. rewrite post_runs. unfold exchange.
  by rewrite limited_network, Hnet.
Qed.

(** An upstream that answers [ok: false] makes every [post] return that
    answer. *)
Lemma post_refused this endpoint body w resp data :
  (∀ r, network w r = Responded resp) →
  json_of resp = Some data →
  Api.post this endpoint body w
  = (Normal data, logged (limited w) [EvFetch (post_request this endpoint body)]).
Proof.
  intros Hnet Hjson. rewrite post_runs. unfold exchange.
  by rewrite limited_network, Hnet, Hjson.
Qed.

(** C6 fails in the code. On a Message context, [replyPhoto], [replyVideo]
    and [sendTyping] await the client without a [try]: when the upstream
    cannot be reached the exception reaches their caller, and so it does
    for [reply] on a BusinessMessage context. When the upstream answers
    [ok: false] the three return without a word on the console: the flag
    is not looked at. [reply] on the Message context, the sibling path,
    does both: it returns normally in the first world and logs the refusal
    in the second. *)
Theorem reply_channel_lets_failures_through :
  ∀ (this biz : TelegramExecutionContext) (photo caption video text : string)
    (options : Params) (w1 w2 : World) (e : JsError) (resp : Response)
    (data : TelegramApiResponse),
    update_type this = Some Message →
    update_type biz = Some BusinessMessage →
    (String.length text ≤ 4096)%nat →
    (∀ r, network w1 r = Failed e) →
    (∀ r, network w2 r = Responded resp) →
    json_of resp = Some data →
    ok data = false →
    fst (Ctx.replyPhoto this photo caption options w1) = Throw e
    ∧ fst (Ctx.replyVideo this video options w1) = Throw e
    ∧ fst (Ctx.sendTyping this w1) = Throw e
    ∧ fst (Ctx.reply biz text None options w1) = Throw e
    ∧ fst (Ctx.reply this text None options w1) = Normal tt
    ∧ filter is_error_line (events_of (Ctx.replyPhoto this photo caption options) w2)
      = []
    ∧ filter is_error_line (events_of (Ctx.replyVideo this video options) w2) = []
    ∧ filter is_error_line (events_of (Ctx.sendTyping this) w2) = []
    ∧ filter is_error_line (events_of (Ctx.reply this text None options) w2)
      = [EvConsole LError "Error in sendMessage:"].
Proof.
  intros this biz photo caption video text options w1 w2 e resp data
    Hmsg Hbiz Hlen Hdown Hnok Hjson Hok.
  assert (Hshort : Nat.ltb Ctx.MAX_MESSAGE_LENGTH (String.length text) = false)
    by (apply Nat.ltb_ge; exact Hlen).
  assert (Hquiet : ∀ w, filter is_error_line (limit_events w) = []).
  { intros w. unfold limit_events.
    by destruct (snd (RateLimit.step_nominal _ _)). }
  repeat split.
  - unfold Ctx.replyPhoto. rewrite Hmsg. unfold Api.sendPhoto, bind.
    by rewrite (post_unreachable _ _ _ _ e Hdown).
  - unfold Ctx.replyVideo. rewrite Hmsg. unfold Api.sendVideo, bind.
    by rewrite (post_unreachable _ _ _ _ e Hdown).
  - unfold Ctx.sendTyping. rewrite Hmsg. unfold Api.sendChatAction, bind.
    by rewrite (post_unreachable _ _ _ _ e Hdown).
  - unfold Ctx.reply. rewrite Hbiz, Hshort. cbn [andb].
    unfold Api.sendMessage, bind.
    by rewrite (post_unreachable _ _ _ _ e Hdown).
  - unfold Ctx.reply. rewrite Hmsg, Hshort. cbn [andb].
    unfold Ctx.sendMessage, Api.sendMessage, try_catch, bind.
    by rewrite (post_unreachable _ _ _ _ e Hdown).
  - unfold Ctx.replyPhoto. rewrite Hmsg. unfold Api.sendPhoto.
    erewrite events_of_trace.
    2:{ unfold bind. rewrite (post_refused _ _ _ _ resp data Hnok Hjson).
        cbn [fst snd ret]. by rewrite logged_trace, limited_trace, <- app_assoc. }
    by rewrite filter_app, Hquiet.
  - unfold Ctx.replyVideo. rewrite Hmsg. unfold Api.sendVideo.
    erewrite events_of_trace.
    2:{ unfold bind. rewrite (post_refused _ _ _ _ resp data Hnok Hjson).
        cbn [fst snd ret]. by rewrite logged_trace, limited_trace, <- app_assoc. }
    by rewrite filter_app, Hquiet.
  - unfold Ctx.sendTyping. rewrite Hmsg. unfold Api.sendChatAction.
    erewrite events_of_trace.
    2:{ unfold bind. rewrite (post_refused _ _ _ _ resp data Hnok Hjson).
        cbn [fst snd ret]. by rewrite logged_trace, limited_trace, <- app_assoc. }
    by rewrite filter_app, Hquiet.
  - unfold Ctx.reply. rewrite Hmsg, Hshort. cbn [andb].
    unfold Ctx.sendMessage, Api.sendMessage.
    erewrite events_of_trace.
    2:{ unfold try_catch, bind.
        rewrite (post_refused _ _ _ _ resp data Hnok Hjson).
        unfold Ctx.handleApiResponse. rewrite Hok. unfold console, emit.
        cbn [fst snd trace]. by rewrite logged_trace, limited_trace, <- !app_assoc. }
    by rewrite filter_app, Hquiet.
Qed.

Lemma reply_channel_lets_failures_through_witness :
  fst (Ctx.replyPhoto (ctx_of (text_update "hi")) "https://example.com/p.jpg"
         "" ∅ offline) = Throw (FetchError "offline").
Proof.
  refine (proj1 (reply_channel_lets_failures_through
    (ctx_of (text_update "hi")) (ctx_of (business_update "hi"))
    "https://example.com/p.jpg" "" "https://example.com/v.mp4" "hello" ∅
    offline refusing (FetchError "offline") refusal
    {| ok := false; result := ResultOther; description := Some "Bad Request" |}
    _ _ _ _ _ _ _)).
  - reflexivity.
  - reflexivity.
  - simpl. lia.
  - reflexivity.
  - reflexivity.
  - reflexivity.
  - reflexivity.
Defined.

(** ** Over-long replies *)

Lemma sendDocument_blob_runs this params content mime w :
  JsVal.get params "document" = VBlob content mime →
  Api.sendDocument this params w
  = match Api.extra_fields params with
    | None => (Throw (TypeError "Cannot read properties of undefined"), w)
    | Some extras =>
        exchange
          (document_request this (extras ∪ Api.blob_form params content mime))
          "Error in sendDocument with Blob:" w
    end.
Proof.
  intros Hdoc. unfold Api.sendDocument. rewrite Hdoc.
  destruct (Api.extra_fields params) as [extras|]; [|done].
  unfold exchange, document_request, logged. run_m.
  destruct (network w _) as [r|e]; [destruct (json_of r)|]; run_m;
    by rewrite <- ?app_assoc.
Qed.

Lemma blob_form_document params content mime :
  Api.blob_form params content mime !! "document"
  = Some (FormFile content mime "document.txt").
Proof.
  unfold Api.blob_form, Api.append_if_truthy.
  repeat case_match; rewrite ?lookup_insert_ne by done; apply lookup_insert_eq.
Qed.

Lemma blob_form_caption params content mime c :
  JsVal.get params "caption" = VStr c →
  Js.truthy_str c = true →
  Api.blob_form params content mime !! "caption" = Some (FormString c).
Proof.
  intros Hc Ht. unfold Api.blob_form, Api.append_if_truthy.
  rewrite Hc. cbn [JsVal.truthy]. rewrite Ht.
  repeat case_match; rewrite ?lookup_insert_ne by done; apply lookup_insert_eq.
Qed.

(** The loop over the other keys never touches a key appended by name. *)
Lemma extra_fields_named params extras k :
  Api.extra_fields params = Some extras →
  k ∈ Api.named_fields →
  extras !! k = None.
Proof.
  unfold Api.extra_fields. case_decide; [|done]. intros [= <-] Hk.
  rewrite lookup_omap, map_lookup_filter.
  destruct (params !! k); simpl; [|done].
  by rewrite option_guard_False by (simpl; tauto).
Qed.

(** The loop goes through exactly when no other key holds [undefined]. *)
Lemma extra_fields_defined params :
  is_Some (Api.extra_fields params)
  ↔ ∀ k v, params !! k = Some v → k ∉ Api.named_fields →
           JsVal.is_undefined v = false.
Proof.
  unfold Api.extra_fields. case_decide as Hall.
  - split; [|eauto]. intros _ k v Hk Hn.
    apply (Hall k v). by apply map_lookup_filter_Some.
  - split; [by intros [? ?]|]. intros Hdef. destruct Hall.
    intros k v [Hk Hn]%map_lookup_filter_Some. by apply (Hdef k v).
Qed.

Lemma requests_of_app es es' :
  requests_of (es ++ es') = requests_of es ++ requests_of es'.
Proof. apply omap_app. Qed.

Lemma requests_of_limit_events w : requests_of (limit_events w) = [].
Proof.
  unfold limit_events. by destruct (snd (RateLimit.step_nominal _ _)).
Qed.

(** An exchange whose answer is checked and whose failure is caught, as
    the guarded branches of the context do it: the caller gets a normal
    return and the run holds the one request. *)
Lemma guarded_exchange (m : M TelegramApiResponse) req failure context caught
    w w0 :
  m w = exchange req failure w0 →
  let out :=
    try_catch (bind m (λ response, Ctx.handleApiResponse response context))
      (λ _, console LError caught) w in
  fst out = Normal tt
  ∧ ∃ tail, trace (snd out) = trace w0 ++ EvFetch req :: tail
            ∧ requests_of tail = [].
Proof.
  intros Hm. unfold try_catch, bind. rewrite Hm.
  unfold exchange, Ctx.handleApiResponse.
  destruct (network w0 req) as [r|e];
    [destruct (json_of r) as [data|]; [destruct (ok data)|]|];
    unfold logged; run_m; (split; [done|]); eexists;
    rewrite <- ?app_assoc; (split; [reflexivity|done]).
Qed.

(** The requests of an over-long [reply] on a context whose kind is
    present. It returns normally and: when the kind is Inline, its one
    request answers the inline query with the single article made of the
    text; otherwise every request of the run uploads the text as a text
    file with the fixed caption to [sendDocument], there is at most one,
    and there is exactly one when a parse mode is given and no option
    holds [undefined]. *)
Lemma long_reply_requests :
  ∀ (this : TelegramExecutionContext) (message : string)
    (parse_mode : option ParseMode) (options : Params) (ut : UpdateType)
    (w : World),
    update_type this = Some ut →
    (4096 < String.length message)%nat →
    let es := events_of (Ctx.reply this message parse_mode options) w in
    fst (Ctx.reply this message parse_mode options w) = Normal tt
    ∧ if UpdateType_eqb ut Inline
      then ∃ r, requests_of es = [r]
                ∧ is_article_answer this message parse_mode r
      else Forall (is_text_file_upload (api this) message) (requests_of es)
           ∧ (length (requests_of es) ≤ 1)%nat
           ∧ (is_Some parse_mode → all_defined options →
              length (requests_of es) = 1%nat).
Proof.
  intros this message parse_mode options ut w Hut Hlong es.
  assert (Hlt : Nat.ltb Ctx.MAX_MESSAGE_LENGTH (String.length message) = true)
    by (by apply Nat.ltb_lt).
  subst es. unfold Ctx.reply. rewrite Hut, Hlt. cbn [andb].
  destruct (UpdateType_eqb ut Inline) eqn:Hinline; cbn [negb].
  - (* Inline: the article *)
    assert (ut = Inline) as -> by (by destruct ut).
    unfold Ctx.answer_with, Api.answerInline.
    set (params := <[ "results" := _ ]> _).
    destruct (guarded_exchange (Api.post (api this) "answerInlineQuery" params)
                _ _ "answerInline" ("Exception in " +:+ "answerInline" +:+ ":")
                w _ (post_runs _ _ _ _)) as (Hret & tail & Htr & Htail).
    split; [exact Hret|].
    exists (post_request (api this) "answerInlineQuery" params). split.
    + erewrite events_of_trace
        by (rewrite Htr, limited_trace, <- app_assoc; reflexivity).
      by rewrite requests_of_app, requests_of_limit_events; simpl; rewrite Htail.
    + done.
  - (* any other kind: the document *)
    set (docOptions := <[ "caption" := _ ]> _).
    assert (Hdoc : JsVal.get docOptions "document" = VBlob message "text/plain").
    { unfold JsVal.get, docOptions.
      by rewrite lookup_insert_ne, lookup_insert_eq by done. }
    assert (Hcap : JsVal.get docOptions "caption" = VStr Ctx.LONG_TEXT_CAPTION).
    { unfold JsVal.get, docOptions. by rewrite lookup_insert_eq. }
    assert (Hrun := sendDocument_blob_runs (api this) docOptions message
                      "text/plain" w Hdoc).
    destruct (Api.extra_fields docOptions) as [extras|] eqn:Hextras.
    + destruct (guarded_exchange (Api.sendDocument (api this) docOptions)
                  _ _ "sendDocument" "Exception in sendDocument:" w _ Hrun)
        as (Hret & tail & Htr & Htail).
      split; [exact Hret|].
      erewrite events_of_trace by (rewrite Htr; reflexivity).
      cbn [requests_of omap list_omap]. fold (requests_of tail). rewrite Htail.
      repeat split; [|simpl; lia].
      apply Forall_singleton. repeat split. eexists. split; [reflexivity|].
      rewrite !lookup_union_r
        by (apply (extra_fields_named docOptions); [done|set_solver]).
      split; [apply blob_form_document|].
      by apply blob_form_caption.
    + assert (Hout : try_catch
                (bind (Api.sendDocument (api this) docOptions)
                      (λ response, Ctx.handleApiResponse response "sendDocument"))
                (λ _, console LError "Exception in sendDocument:") w
              = (Normal tt,
                 logged w [EvConsole LError "Exception in sendDocument:"])).
      { unfold try_catch, bind. by rewrite Hrun. }
      rewrite Hout. split; [done|].
      erewrite events_of_trace by (rewrite Hout; reflexivity).
      repeat split; [constructor|simpl; lia|].
      intros [pm ->] Hopts. exfalso.
      assert (Hsome : is_Some (Api.extra_fields docOptions)).
      { apply extra_fields_defined. intros k v Hk Hn. unfold docOptions in Hk.
        repeat (apply lookup_insert_Some in Hk
                  as [[<- <-]|[? Hk]]; [done || (exfalso; apply Hn; set_solver)|]).
        by apply (Hopts k v). }
      rewrite Hextras in Hsome. by destruct Hsome.
Qed.

(** What C4 leaves out: without a parse mode the parameter object holds
    [parse_mode: undefined], [sendDocument] throws on it before its
    request, and [reply] swallows the error: the over-long text is lost. *)
Lemma long_reply_without_parse_mode_is_lost :
  events_of (Ctx.reply (ctx_of (text_update "hi")) (letters 5000) None ∅)
    refusing
  = [EvConsole LError "Exception in sendDocument:"].
Proof. vm_compute. reflexivity. Qed.

(** C4, as the code has it. On a context whose kind is present, [reply]
    with a text of more than 4096 characters returns normally and sends
    exactly one request. When the kind is Inline, that request answers
    the inline query with the single article made of the text. When the
    kind is not Inline, and a parse mode is given and no option holds
    [undefined], that request uploads the text as a text file with the
    fixed caption to [sendDocument]: the text is sent as a document and
    not as a text message. *)
Theorem long_reply_is_sent_as_document :
  ∀ (this : TelegramExecutionContext) (message : string)
    (parse_mode : option ParseMode) (options : Params) (ut : UpdateType)
    (w : World),
    update_type this = Some ut →
    (4096 < String.length message)%nat →
    (ut ≠ Inline → is_Some parse_mode ∧ all_defined options) →
    fst (Ctx.reply this message parse_mode options w) = Normal tt
    ∧ ∃ r,
        requests_of (events_of (Ctx.reply this message parse_mode options) w)
          = [r]
        ∧ if UpdateType_eqb ut Inline
          then is_article_answer this message parse_mode r
          else is_text_file_upload (api this) message r.
Proof.
  intros this message parse_mode options ut w Hut Hlong Hgiven.
  destruct (long_reply_requests this message parse_mode options ut w Hut Hlong)
    as [Hret Hreq].
  split; [exact Hret|].
  destruct (UpdateType_eqb ut Inline) eqn:Hinline; [exact Hreq|].
  destruct Hreq as (Hall & _ & Hone).
  destruct Hgiven as [Hpm Hopts]; [by intros ->|].
  specialize (Hone Hpm Hopts).
  destruct (requests_of _) as [|r [|r' rest]]; try discriminate Hone.
  exists r. split; [done|]. exact (Forall_inv Hall).
Qed.

Lemma long_reply_is_sent_as_document_witness :
  fst (Ctx.reply (ctx_of (text_update "hi")) (letters 5000) (Some HTML) ∅
         refusing) = Normal tt.
Proof.
  refine (proj1 (long_reply_is_sent_as_document (ctx_of (text_update "hi"))
                   (letters 5000) (Some HTML) ∅ Message refusing _ _ _)).
  - reflexivity.
  - apply Nat.ltb_lt. vm_compute. reflexivity.
  - intros _. split; [by eexists|]. apply map_Forall_empty.
Defined.

(** C4 as stated fails when the context has no kind: the kind is not
    Inline and the text is longer than 4096 characters, yet [reply] stops
    at its first check and nothing is sent. *)
Lemma long_reply_without_kind_sends_nothing :
  let this := ctx_of empty_update in
  update_type this ≠ Some Inline
  ∧ Nat.ltb 4096 (String.length (letters 5000)) = true
  ∧ events_of (Ctx.reply this (letters 5000) (Some HTML) ∅) refusing
    = [EvConsole LWarn "No update type set."]
  ∧ requests_of (events_of (Ctx.reply this (letters 5000) (Some HTML) ∅) refusing)
    = [].
Proof. repeat split; try discriminate; vm_compute; reflexivity. Qed.

(** ** Dispatch *)

(** C9. A request whose path is not [/<token>] is answered with the plain
    [ok] response (status 200) and leaves the world as it was: the body is
    not read, no handler runs, nothing is logged. *)
Theorem handle_other_path_is_accepted :
  ∀ (webhook_set : M Response) (this : TelegramBot) (request : Request)
    (w : World),
    pathname request ≠ "/" +:+ token this →
    Bot.handle webhook_set this request w
      = (Normal (Resp (new_Response "ok" 200)), w)
    ∧ events_of (Bot.handle webhook_set this request) w = []
    ∧ Bot.after_handle this request = this.
Proof.
  intros webhook_set this request w Hpath.
  assert (Hneq : String.eqb ("/" +:+ token this) (pathname request) = false).
  { apply String.eqb_neq. congruence. }
  assert (Hrun : Bot.handle webhook_set this request w
                 = (Normal (Resp (new_Response "ok" 200)), w)).
  { unfold Bot.handle, try_catch. by rewrite Hneq. }
  repeat split.
  - exact Hrun.
  - apply events_of_trace. rewrite Hrun. simpl. by rewrite app_nil_r.
  - unfold Bot.after_handle. by rewrite Hneq.
Qed.

Lemma handle_other_path_is_accepted_witness :
  Bot.handle no_webhook
    (Bot.onEvent Message (answering "event") (Bot.new "T" None))
    (post_to "/other" (text_update "hello")) offline
  = (Normal (Resp (new_Response "ok" 200)), offline).
Proof.
  refine (proj1 (handle_other_path_is_accepted no_webhook
                   (Bot.onEvent Message (answering "event") (Bot.new "T" None))
                   (post_to "/other" (text_update "hello")) offline _)).
  discriminate.
Defined.

Lemma kind_name_not_inherited ut :
  UpdateType_value ut ∉ JsObject.prototype_members.
Proof.
  destruct ut;
    apply (bool_decide_eq_false_1 (_ ∈ JsObject.prototype_members));
    vm_compute; reflexivity.
Qed.

Lemma events_get this ut :
  JsObject.get (events this) (UpdateType_value ut)
  = match events this !! UpdateType_value ut with
    | Some callback => JsObject.Own callback
    | None => JsObject.Absent
    end.
Proof.
  unfold JsObject.get. destruct (events this !! UpdateType_value ut); [done|].
  by rewrite decide_False by apply kind_name_not_inherited.
Qed.

(** The property read [ctx.command && this.commands[ctx.command]] in terms
    of the registered handlers. *)
Lemma command_lookup_cases this ctx :
  Bot.command_lookup this ctx
  = match nonempty_command ctx ≫= (λ c, commands this !! c) with
    | Some callback => JsObject.Own callback
    | None =>
        if names_inherited_member ctx
        then JsObject.Inherited (Js.or_empty (command ctx))
        else JsObject.Absent
    end.
Proof.
  unfold Bot.command_lookup, names_inherited_member, nonempty_command,
    JsObject.get.
  destruct (command ctx) as [c|]; simpl; [|done].
  destruct (Js.truthy_str c); simpl; [|done].
  destruct (commands this !! c); [done|].
  by destruct (decide (c ∈ JsObject.prototype_members));
    [rewrite bool_decide_eq_true_2|rewrite bool_decide_eq_false_2].
Qed.

(** A POST of an update to the token path: the body is read, the context
    is built, and the rest is [dispatch] under the catch-all. *)
Lemma handle_post_runs webhook_set this request u w :
  req_method request = "POST" →
  pathname request = "/" +:+ token this →
  req_json request = Some u →
  Bot.handle webhook_set this request w
  = let ctx := Ctx.make (token this) (bot_api this) u in
    match Bot.dispatch this ctx
            (logged w ([EvReadBody; EvConsole LLog "Received update:"] ++
                       match update_type ctx with
                       | Some _ => []
                       | None => [EvConsole LWarn "Unhandled update type:"]
                       end)) with
    | (Normal r, w') => (Normal r, w')
    | (Throw _, w') =>
        (Normal (Resp (new_Response "Internal Server Error" 500)),
         logged w' [EvConsole LError "Error handling request:"])
    end.
Proof.
  intros Hpost Hpath Hbody. unfold Bot.handle, Bot.request_json, Ctx.new.
  rewrite Hpost, Hpath, Hbody, !String.eqb_refl.
  unfold logged. run_m.
  destruct (update_type (Ctx.make (token this) (bot_api this) u)); run_m;
    rewrite <- !app_assoc; cbn [app];
    match goal with
    | |- context [Bot.dispatch ?b ?c ?x] =>
        destruct (Bot.dispatch b c x) as [[r|e] w']
    end; run_m; done.
Qed.

(** C1, as the code has it. On a bot whose command registry has its
    default prototype, a POST to the token path whose body is an update of
    some kind runs exactly one handler or none, by precedence:
    the handler registered under the command, when the command is there
    and not empty; otherwise, unless the command names a member inherited
    from [Object.prototype], the handler registered for the kind;
    otherwise no handler, and a 400. An update of no kind gets a 400 and
    no handler. Running a handler means: [handle] is that one call under
    the catch-all, nothing else but console lines. *)
Theorem handle_dispatch_precedence :
  ∀ (webhook_set : M Response) (this : TelegramBot) (request : Request)
    (u : TelegramUpdate) (w : World),
    default_prototype this →
    req_method request = "POST" →
    pathname request = "/" +:+ token this →
    req_json request = Some u →
    let ctx := Ctx.make (token this) (bot_api this) u in
    let received := [EvReadBody; EvConsole LLog "Received update:"] in
    match update_type ctx with
    | None =>
        Bot.handle webhook_set this request w
        = (Normal (Resp (new_Response "Unhandled update type" 400)),
           logged w (received ++ [EvConsole LWarn "Unhandled update type:";
                                  EvConsole LWarn "Unhandled update type:"]))
    | Some ut =>
        match nonempty_command ctx ≫= (λ c, commands this !! c) with
        | Some callback =>
            Bot.handle webhook_set this request w
            = invoke callback ctx
                (logged w (received ++
                   [EvConsole LLog ("Dispatching command: /"
                                    +:+ Js.or_empty (command ctx))]))
        | None =>
            if names_inherited_member ctx then True
            else
              match events this !! UpdateType_value ut with
              | Some callback =>
                  Bot.handle webhook_set this request w
                  = invoke callback ctx
                      (logged w (received ++
                         [EvConsole LLog ("Dispatching event: "
                                          +:+ UpdateType_value ut)]))
              | None =>
                  Bot.handle webhook_set this request w
                  = (Normal (Resp (new_Response
                                     "No handler for this update type" 400)),
                     logged w (received ++
                                 [EvConsole LWarn "No handler found for:"]))
              end
        end
    end.
Proof.
  intros webhook_set this request u w _ Hpost Hpath Hbody ctx received.
  rewrite (handle_post_runs webhook_set this request u w Hpost Hpath Hbody).
  fold ctx. unfold Bot.dispatch. rewrite command_lookup_cases.
  destruct (update_type ctx) as [ut|] eqn:Hut.
  - destruct (nonempty_command ctx ≫= _) as [callback|] eqn:Hcmd.
    + unfold invoke, logged. run_m.
      rewrite <- !app_assoc. cbn [app].
      destruct (callback ctx _) as [[r|e] w']; run_m; done.
    + destruct (names_inherited_member ctx); [done|].
      rewrite events_get.
      destruct (events this !! UpdateType_value ut) as [callback|].
      * unfold invoke, logged. run_m.
        rewrite <- !app_assoc. cbn [app].
        destruct (callback ctx _) as [[r|e] w']; run_m; done.
      * unfold logged. run_m. by rewrite <- !app_assoc.
  - unfold logged. run_m. by rewrite <- !app_assoc.
Qed.

Lemma handle_dispatch_precedence_witness :
  fst (Bot.handle no_webhook
         (Bot.onEvent Message (answering "event")
            (Bot.onCommand "start" "Start the bot" (answering "command")
               (Bot.new "T" None)))
         (post_to "/T" (text_update "/start")) offline)
  = Normal (Resp (new_Response "command" 200)).
Proof.
  refine (f_equal fst
    (handle_dispatch_precedence no_webhook
       (Bot.onEvent Message (answering "event")
          (Bot.onCommand "start" "Start the bot" (answering "command")
             (Bot.new "T" None)))
       (post_to "/T" (text_update "/start")) (text_update "/start") offline
       _ _ _ _)); reflexivity.
Defined.

(** C1 as stated fails on the command itself. The text ["/"] yields the
    empty command; a handler registered under it is passed over and the
    Message handler runs. And the text ["/toString"] yields a command no
    handler is registered under, yet the Message handler does not run:
    the property read finds [Object.prototype.toString], and what that
    returns is not a response. *)
Lemma empty_command_handler_is_skipped :
  let bot :=
    Bot.onEvent Message (answering "event")
      (Bot.onCommand "" "empty" (answering "command") (Bot.new "T" None)) in
  let bot' := Bot.onEvent Message (answering "event") (Bot.new "T" None) in
  (command (ctx_of (text_update "/")) = Some ""
   ∧ is_Some (commands bot !! "")
   ∧ fst (Bot.handle no_webhook bot (post_to "/T" (text_update "/")) offline)
     = Normal (Resp (new_Response "event" 200)))
  ∧ (command (ctx_of (text_update "/toString")) = Some "toString"
     ∧ commands bot' !! "toString" = None
     ∧ is_Some (events bot' !! UpdateType_value Message)
     ∧ fst (Bot.handle no_webhook bot' (post_to "/T" (text_update "/toString"))
              offline)
       = Normal (Foreign "toString")).
Proof.
  repeat split; try (vm_compute; reflexivity); by eexists.
Qed.

(* ===================================================================== *)
(** * Further properties of the code *)
(* ===================================================================== *)

(** ** The limiter *)

(** X1. One call of the limiter, with its timer on time, never moves the
    window end back, and leaves the clock no later than the window end.
    It waits only when the count has reached 30 inside an open window; the
    delay it asks for is then the time left in that window, never
    negative, and the next window ends 1000 ms after the old one. *)
Theorem window_end_never_moves_back :
  ∀ (now : Z) (l : Limiter),
    let out := RateLimit.step_nominal now l in
    resetTime l ≤ resetTime (fst out)
    ∧ match snd out with
      | Some ms =>
          0 ≤ ms ∧ ms = resetTime l - now ∧ 30 ≤ requestCount l
          ∧ resetTime (fst out) = resetTime l + 1000
          ∧ RateLimit.timer_fires now ms ≤ resetTime (fst out)
      | None => now ≤ resetTime (fst out)
      end.
Proof.
  intros now l out. subst out.
  unfold RateLimit.step_nominal. rewrite step_cases.
  unfold RateLimit.timer_fires, RateLimit.waitTime, RateLimit.refresh.
  destruct (Z.ltb_spec (resetTime l) now); simpl; [lia|].
  destruct (Z.leb_spec 30 (requestCount l)); simpl; lia.
Qed.

Lemma step_nominal_count now l :
  0 ≤ requestCount l →
  1 ≤ requestCount (fst (RateLimit.step_nominal now l)) ≤ 30.
Proof.
  intros Hc. unfold RateLimit.step_nominal. rewrite step_cases.
  destruct (Z.ltb_spec (resetTime l) now); simpl; [lia|].
  destruct (Z.leb_spec 30 (requestCount l)); simpl; lia.
Qed.

(** X2. Whatever the times at which calls enter, once one call has gone
    through the limiter the count is between 1 and 30, and it stays there
    after every further call. *)
Theorem run_keeps_count_within_cap :
  ∀ (t : Z) (times : list Z) (l : Limiter),
    0 ≤ requestCount l →
    1 ≤ requestCount (fst (RateLimit.run (t :: times) l)) ≤ 30.
Proof.
  intros t times. revert t.
  induction times as [|t' times IH]; intros t l Hc.
  - pose proof (step_nominal_count t l Hc) as Hstep. simpl.
    by destruct (RateLimit.step_nominal t l).
  - pose proof (step_nominal_count t l Hc) as Hstep.
    change (RateLimit.run (t :: t' :: times) l)
      with (let (l', d) := RateLimit.step_nominal t l in
            let (l'', ds) := RateLimit.run (t' :: times) l' in (l'', d :: ds)).
    destruct (RateLimit.step_nominal t l) as [l1 d1]. simpl in Hstep.
    specialize (IH t' l1 ltac:(lia)).
    by destruct (RateLimit.run (t' :: times) l1).
Qed.

Lemma run_keeps_count_within_cap_witness :
  1 ≤ requestCount
        (fst (RateLimit.run [5; 2000; 2001]
                {| requestCount := 30; resetTime := 1000 |})) ≤ 30.
Proof.
  apply (run_keeps_count_within_cap 5 [2000; 2001]
           {| requestCount := 30; resetTime := 1000 |}).
  simpl. lia.
Defined.

(** X3. The window is fixed, not sliding: thirty calls that enter before
    the end [R] of a fresh window and thirty more that enter after it,
    within 1000 ms of the first of them, all proceed without any delay,
    however close together the sixty are. *)
Theorem fixed_window_admits_boundary_burst :
  ∀ (R t0 : Z) (before after : list Z),
    length before = 30%nat →
    Forall (λ t, t ≤ R) before →
    R < t0 →
    length after = 29%nat →
    Forall (λ t, t ≤ t0 + 1000) after →
    RateLimit.run (before ++ t0 :: after) {| requestCount := 0; resetTime := R |}
    = ({| requestCount := 30; resetTime := t0 + 1000 |}, replicate 60 None).
Proof.
  intros R t0 before after Hlen Hbefore Ht0 Hlen' Hafter.
  rewrite run_app, (run_within_window before R 0 Hbefore) by lia.
  rewrite Hlen. simpl RateLimit.run.
  unfold RateLimit.step_nominal at 1. rewrite step_cases. simpl.
  destruct (Z.ltb_spec R t0); [|lia].
  rewrite (run_within_window after (t0 + 1000) 1 Hafter) by lia.
  rewrite Hlen'. reflexivity.
Qed.

Lemma fixed_window_admits_boundary_burst_witness :
  RateLimit.run (replicate 30 1000 ++ 1001 :: replicate 29 1001)
    {| requestCount := 0; resetTime := 1000 |}
  = ({| requestCount := 30; resetTime := 2001 |}, replicate 60 None).
Proof.
  apply (fixed_window_admits_boundary_burst 1000 1001
           (replicate 30 1000) (replicate 29 1001)).
  - reflexivity.
  - repeat constructor; lia.
  - lia.
  - reflexivity.
  - repeat constructor; lia.
Defined.

(** ** The outbound client, operation by operation *)

Lemma exchange_result req failure w :
  fst (exchange req failure w)
  = match network w req with
    | Responded r =>
        match json_of r with
        | Some data => Normal data
        | None => Throw (SyntaxError "Unexpected token")
        end
    | Failed e => Throw e
    end.
Proof.
  unfold exchange. by destruct (network w req) as [r|e]; [destruct (json_of r)|].
Qed.

Lemma exchange_trace req failure w :
  trace (snd (exchange req failure w))
  = trace w ++ EvFetch req ::
      match fst (exchange req failure w) with
      | Normal _ => []
      | Throw _ => [EvConsole LError failure]
      end.
Proof.
  unfold exchange. by destruct (network w req) as [r|e]; [destruct (json_of r)|].
Qed.

(** X4. [post] sends exactly one request, a JSON POST to
    [apiUrl/endpoint], after one step of the shared limiter, whoever the
    client instance and whatever the answer: a failed call costs a unit of
    the budget like any other. It returns the decoded body whatever the
    HTTP status; a transport failure or a body that is not JSON is logged
    on the console and thrown on to the caller. *)
Theorem post_sends_once_and_rethrows :
  ∀ (this : TelegramApi) (endpoint : string) (body : Params) (w : World),
    let out := Api.post this endpoint body w in
    let es := events_of (Api.post this endpoint body) w in
    let req := post_request this endpoint body in
    fst out
      = match network w req with
        | Responded r =>
            match json_of r with
            | Some data => Normal data
            | None => Throw (SyntaxError "Unexpected token")
            end
        | Failed e => Throw e
        end
    ∧ limiter (snd out) = fst (RateLimit.step_nominal (clock w) (limiter w))
    ∧ requests_of es = [req]
    ∧ filter is_error_line es
      = match fst out with
        | Normal _ => []
        | Throw _ => [EvConsole LError ("Error in POST " +:+ endpoint +:+ ":")]
        end.
Proof.
  intros this endpoint body w out es req. subst out es req.
  assert (Hes : events_of (Api.post this endpoint body) w
    = limit_events w ++ EvFetch (post_request this endpoint body) ::
        match fst (Api.post this endpoint body w) with
        | Normal _ => []
        | Throw _ => [EvConsole LError ("Error in POST " +:+ endpoint +:+ ":")]
        end).
  { apply events_of_trace.
    by rewrite post_runs, exchange_trace, limited_trace, <- app_assoc. }
  rewrite Hes. rewrite post_runs, exchange_result, limited_network.
  repeat split.
  - by rewrite exchange_limiter, limited_limiter.
  - rewrite requests_of_app, requests_of_limit_events.
    by destruct (network w _) as [r|e]; [destruct (json_of r)|].
  - rewrite filter_app.
    replace (filter is_error_line (limit_events w)) with (@nil Event)
      by (unfold limit_events; by destruct (snd (RateLimit.step_nominal _ _))).
    by destruct (network w _) as [r|e]; [destruct (json_of r)|].
Qed.

(** X5. [sendDocument] with a Blob throws a TypeError as soon as any
    parameter outside the five it appends by name holds [undefined]: the
    form is never sent, no request leaves, and the world is untouched. *)
Theorem sendDocument_undefined_extra_throws :
  ∀ (this : TelegramApi) (params : Params) (content mime k : string)
    (w : World),
    JsVal.get params "document" = VBlob content mime →
    k ∉ Api.named_fields →
    params !! k = Some VUndefined →
    Api.sendDocument this params w
    = (Throw (TypeError "Cannot read properties of undefined"), w).
Proof.
  intros this params content mime k w Hdoc Hk Hundef.
  rewrite (sendDocument_blob_runs _ _ _ _ _ Hdoc).
  destruct (Api.extra_fields params) as [extras|] eqn:Hextras; [|done].
  exfalso.
  assert (Hsome : is_Some (Api.extra_fields params)) by (by rewrite Hextras).
  rewrite extra_fields_defined in Hsome.
  by specialize (Hsome k VUndefined Hundef Hk).
Qed.

Lemma sendDocument_undefined_extra_throws_witness :
  Api.sendDocument (Api.new "T")
    (<[ "parse_mode" := VUndefined ]>
       (<[ "document" := VBlob "hello" "text/plain" ]>
          {[ "chat_id" := VStr "42" ]})) offline
  = (Throw (TypeError "Cannot read properties of undefined"), offline).
Proof.
  apply (sendDocument_undefined_extra_throws (Api.new "T") _ "hello"
           "text/plain" "parse_mode").
  - reflexivity.
  - by apply (bool_decide_eq_false_1 (_ ∈ Api.named_fields)).
  - reflexivity.
Defined.

Lemma blob_form_chat_id params content mime :
  Api.blob_form params content mime !! "chat_id"
  = Some (FormString (JsVal.show (JsVal.get params "chat_id"))).
Proof.
  unfold Api.blob_form, Api.append_if_truthy.
  repeat case_match; rewrite ?lookup_insert_ne by done;
    apply lookup_singleton_eq.
Qed.

Lemma blob_form_optional params content mime k :
  k ∈ optional_fields →
  Api.blob_form params content mime !! k
  = if JsVal.truthy (JsVal.get params k)
    then Some (FormString (JsVal.show (JsVal.get params k)))
    else None.
Proof.
  intros Hk. unfold optional_fields in Hk.
  repeat (apply elem_of_cons in Hk as [->|Hk]); [| | |by apply elem_of_nil in Hk].
  all: unfold Api.blob_form, Api.append_if_truthy.
  all: repeat case_match;
       repeat (rewrite lookup_insert_eq || rewrite lookup_insert_ne by done);
       first [congruence | by apply lookup_singleton_ne].
Qed.

Lemma blob_form_other params content mime k :
  k ∉ Api.named_fields →
  Api.blob_form params content mime !! k = None.
Proof.
  intros Hk. unfold Api.named_fields in Hk.
  repeat (apply not_elem_of_cons in Hk as [? Hk]).
  unfold Api.blob_form, Api.append_if_truthy.
  repeat case_match;
    rewrite ?lookup_insert_ne by done; by apply lookup_singleton_ne.
Qed.

Lemma extra_fields_lookup params extras k :
  Api.extra_fields params = Some extras →
  k ∉ Api.named_fields →
  extras !! k = params !! k ≫= (λ v, FormString <$> JsVal.toString v).
Proof.
  unfold Api.extra_fields. case_decide; [|done]. intros [= <-] Hk.
  rewrite lookup_omap, map_lookup_filter.
  destruct (params !! k); simpl; [|done].
  by rewrite option_guard_True.
Qed.

(** X6. When the document is a Blob and no other parameter holds
    [undefined], [sendDocument] sends one multipart POST to
    [apiUrl/sendDocument] whose form holds: the chat id, the Blob as a
    file named [document.txt], each of caption, reply-to id and
    business-connection id exactly when it is truthy (an empty caption is
    not sent), and every other parameter under its own key in its string
    form. *)
Theorem sendDocument_form_fields :
  ∀ (this : TelegramApi) (params : Params) (content mime : string) (w : World),
    JsVal.get params "document" = VBlob content mime →
    (∀ k v, params !! k = Some v → k ∉ Api.named_fields →
            JsVal.is_undefined v = false) →
    ∃ form,
      requests_of (events_of (Api.sendDocument this params) w)
        = [document_request this form]
      ∧ form !! "chat_id"
        = Some (FormString (JsVal.show (JsVal.get params "chat_id")))
      ∧ form !! "document" = Some (FormFile content mime "document.txt")
      ∧ (∀ k, k ∈ optional_fields →
              form !! k
              = if JsVal.truthy (JsVal.get params k)
                then Some (FormString (JsVal.show (JsVal.get params k)))
                else None)
      ∧ (∀ k, k ∉ Api.named_fields →
              form !! k
              = params !! k ≫= (λ v, FormString <$> JsVal.toString v)).
Proof.
  intros this params content mime w Hdoc Hdef.
  apply extra_fields_defined in Hdef as [extras Hextras].
  exists (extras ∪ Api.blob_form params content mime).
  assert (Hnamed : ∀ k, k ∈ Api.named_fields →
            (extras ∪ Api.blob_form params content mime) !! k
            = Api.blob_form params content mime !! k).
  { intros k Hk. apply lookup_union_r. by apply (extra_fields_named params). }
  repeat split.
  - erewrite events_of_trace.
    2:{ rewrite (sendDocument_blob_runs _ _ _ _ _ Hdoc), Hextras.
        apply exchange_trace. }
    simpl. by destruct (fst (exchange _ _ _)).
  - rewrite Hnamed; [apply blob_form_chat_id|].
    by apply (bool_decide_eq_true_1 (_ ∈ Api.named_fields)).
  - rewrite Hnamed; [apply blob_form_document|].
    by apply (bool_decide_eq_true_1 (_ ∈ Api.named_fields)).
  - intros k Hk. rewrite Hnamed, blob_form_optional; [done..|].
    unfold optional_fields in Hk.
    repeat (apply elem_of_cons in Hk as [->|Hk]);
      [..|by apply elem_of_nil in Hk];
      by apply (bool_decide_eq_true_1 (_ ∈ Api.named_fields)).
  - intros k Hk.
    rewrite lookup_union_l by (by apply blob_form_other).
    by apply extra_fields_lookup.
Qed.

Lemma sendDocument_form_fields_witness :
  ∃ form,
    requests_of (events_of
      (Api.sendDocument (Api.new "T")
         (<[ "caption" := VStr "" ]>
            (<[ "disable_notification" := VBool true ]>
               (<[ "document" := VBlob "hello" "text/plain" ]>
                  {[ "chat_id" := VStr "42" ]})))) offline)
      = [document_request (Api.new "T") form]
    ∧ form !! "caption" = None
    ∧ form !! "disable_notification" = Some (FormString "true").
Proof.
  destruct (sendDocument_form_fields (Api.new "T")
    (<[ "caption" := VStr "" ]>
       (<[ "disable_notification" := VBool true ]>
          (<[ "document" := VBlob "hello" "text/plain" ]>
             {[ "chat_id" := VStr "42" ]}))) "hello" "text/plain" offline)
    as (form & Hreq & _ & _ & Hopt & Hother).
  - reflexivity.
  - intros k v Hk _.
    repeat (apply lookup_insert_Some in Hk as [[<- <-]|[? Hk]]; [done|]).
    by apply lookup_singleton_Some in Hk as [<- <-].
  - exists form. split; [exact Hreq|]. split.
    + etrans; [apply Hopt|reflexivity].
      by apply (bool_decide_eq_true_1 (_ ∈ optional_fields)).
    + etrans; [apply Hother|reflexivity].
      by apply (bool_decide_eq_false_1 (_ ∈ Api.named_fields)).
Defined.

(** X7. [getFile] of the client, given a parameter object with a
    non-empty id, first asks for the metadata. When that call fails in
    transport or its body is not JSON, the error is thrown to the caller
    and nothing is downloaded. When the upstream answers [ok: false], the
    result is a 400 response that quotes the description, and nothing is
    downloaded. When it answers [ok: true], the file is fetched from
    [https://api.telegram.org/file/bot<token>/<file_path>] and the raw
    answer is the result, whatever its status; a failure of the download
    is thrown to the caller. *)
Theorem client_getFile_outcomes :
  ∀ (this : TelegramApi) (file_id token : string) (w : World),
    Js.truthy_str file_id = true →
    let run := Api.getFile this (Api.GetFileParams file_id) token in
    let meta := get_request this "getFile" {[ "file_id" := VStr file_id ]} in
    match network w meta with
    | Failed e =>
        fst (run w) = Throw e ∧ requests_of (events_of run w) = [meta]
    | Responded r =>
        match json_of r with
        | None =>
            fst (run w) = Throw (SyntaxError "Unexpected token")
            ∧ requests_of (events_of run w) = [meta]
        | Some data =>
            if ok data
            then
              let file := file_request token (result_file_path data) in
              requests_of (events_of run w) = [meta; file]
              ∧ fst (run w) = match network w file with
                              | Responded raw => Normal raw
                              | Failed e => Throw e
                              end
            else
              fst (run w)
              = Normal (new_Response
                          ("Error: " +:+ Js.show_ostr (description data)) 400)
              ∧ requests_of (events_of run w) = [meta]
        end
    end.
Proof.
  intros this file_id token w Hid run meta. subst run meta.
  assert (Hrun : ∀ x, Api.getFile this (Api.GetFileParams file_id) token x
    = bind (Api.get this "getFile" {[ "file_id" := VStr file_id ]})
        (λ data,
           if ok data
           then fetch (file_request token (result_file_path data))
           else console LError "Error in getFile:";;
                ret (new_Response
                       ("Error: " +:+ Js.show_ostr (description data)) 400))
        (limited x)).
  { intros x. unfold Api.getFile, bind at 1. rewrite rateLimit_normal.
    cbn [Api.arg_file_id JsVal.truthy]. by rewrite Hid. }
  assert (Hpre : trace (limited (limited w))
                 = trace w ++ limit_events w ++ limit_events (limited w))
    by (by rewrite !limited_trace, <- app_assoc).
  assert (Hnet : network (limited (limited w)) = network w)
    by (by rewrite !limited_network).
  assert (Hquiet : requests_of (limit_events w ++ limit_events (limited w)) = [])
    by (by rewrite requests_of_app, !requests_of_limit_events).
  rewrite Hrun. unfold bind. rewrite get_runs. unfold exchange.
  rewrite Hnet.
  fold (get_request this "getFile" {[ "file_id" := VStr file_id ]}).
  set (meta := get_request this "getFile" {[ "file_id" := VStr file_id ]}).
  destruct (network w meta) as [r|e] eqn:Hmeta;
    [destruct (json_of r) as [data|] eqn:Hjson; [destruct (ok data) eqn:Hok|]|].
  - (* the download *)
    cbn zeta. split.
    + erewrite events_of_trace.
      2:{ rewrite Hrun. unfold bind. rewrite get_runs. unfold exchange.
          rewrite Hnet. fold meta. rewrite Hmeta, Hjson, Hok.
          unfold fetch, bind, emit, logged. cbn [fst snd trace network].
          rewrite Hnet.
          destruct (network w (file_request token (result_file_path data)));
            cbn [snd trace]; rewrite Hpre, <- !app_assoc; reflexivity. }
      by rewrite !requests_of_app, !requests_of_limit_events.
    + unfold fetch, bind, emit, logged. cbn [fst snd network]. rewrite Hnet.
      by destruct (network w (file_request token (result_file_path data))).
  - split; [done|].
    erewrite events_of_trace.
    2:{ rewrite Hrun. unfold bind. rewrite get_runs. unfold exchange.
        rewrite Hnet. fold meta. rewrite Hmeta, Hjson, Hok.
        unfold console, bind, emit, ret, logged. cbn [snd trace].
        rewrite Hpre, <- !app_assoc. reflexivity. }
    by rewrite !requests_of_app, !requests_of_limit_events.
  - split; [done|].
    erewrite events_of_trace.
    2:{ rewrite Hrun. unfold bind. rewrite get_runs. unfold exchange.
        rewrite Hnet. fold meta. rewrite Hmeta, Hjson.
        unfold logged. cbn [snd trace].
        rewrite Hpre, <- !app_assoc. reflexivity. }
    by rewrite !requests_of_app, !requests_of_limit_events.
  - split; [done|].
    erewrite events_of_trace.
    2:{ rewrite Hrun. unfold bind. rewrite get_runs. unfold exchange.
        rewrite Hnet. fold meta. rewrite Hmeta.
        unfold logged. cbn [snd trace].
        rewrite Hpre, <- !app_assoc. reflexivity. }
    by rewrite !requests_of_app, !requests_of_limit_events.
Qed.

Lemma client_getFile_outcomes_witness :
  fst (Api.getFile (Api.new "T") (Api.GetFileParams "file_7") "T" refusing)
  = Normal (new_Response "Error: Bad Request" 400).
Proof.
  refine (proj1 (client_getFile_outcomes (Api.new "T") "file_7" "T" refusing _)).
  reflexivity.
Defined.

(** ** Registration and start-up *)

Lemma register_all_cons r regs bot :
  register_all (r :: regs) bot
  = register_all regs (Bot.onCommand r.1.1 r.1.2 r.2 bot).
Proof. done. Qed.

(** X8. After a chain of [onCommand] calls the command list holds one
    entry per call, in the order of the calls and after the entries that
    were there, duplicates included, while the handler found under a name
    is the one of the last call made with that name (an earlier one is
    overwritten) or, if there was none, the one registered before. Kind
    handlers, token and client are untouched. *)
Theorem registration_last_wins_list_keeps_all :
  ∀ (regs : list (string * string * Handler)) (bot : TelegramBot),
    commandList (register_all regs bot) = commandList bot ++ (listed <$> regs)
    ∧ (∀ c, commands (register_all regs bot) !! c
            = match last (registered_under c regs) with
              | Some r => Some r.2
              | None => commands bot !! c
              end)
    ∧ events (register_all regs bot) = events bot
    ∧ token (register_all regs bot) = token bot
    ∧ bot_api (register_all regs bot) = bot_api bot.
Proof.
  induction regs as [|r regs IH]; intros bot.
  - repeat split; simpl; by rewrite ?app_nil_r.
  - rewrite register_all_cons.
    destruct (IH (Bot.onCommand r.1.1 r.1.2 r.2 bot))
      as (Hlist & Hcmd & Hev & Htok & Hapi).
    repeat split.
    + rewrite Hlist. simpl. by rewrite <- app_assoc.
    + intros c. rewrite Hcmd. unfold registered_under.
      rewrite filter_cons. simpl.
      destruct (filter (λ r0, r0.1.1 = c) regs) as [|r' rest] eqn:Hf.
      * case_decide as Hc; simpl.
        -- subst c. apply lookup_insert_eq.
        -- by apply lookup_insert_ne.
      * assert (is_Some (last (r' :: rest))) as [r0 Hlast]
          by (by apply last_is_Some).
        case_decide;
          [change (last (r :: r' :: rest)) with (last (r' :: rest))|];
          by rewrite Hlast.
    + by rewrite Hev.
    + by rewrite Htok.
    + by rewrite Hapi.
Qed.

(** X9. [initializeCommands] never throws. With an empty command list it
    does nothing at all. Otherwise it sends the whole command list in one
    request to [setMyCommands], entering the limiter twice on the way, and
    whatever comes back only ends up on the console. *)
Theorem initializeCommands_sends_whole_list_once :
  ∀ (this : TelegramBot) (w : World),
    let es := events_of (Bot.initializeCommands this) w in
    fst (Bot.initializeCommands this w) = Normal tt
    ∧ match commandList this with
      | [] => snd (Bot.initializeCommands this w) = w
      | _ :: _ =>
          requests_of es = [commands_request (bot_api this) (commandList this)]
          ∧ entries es = 2%nat
      end.
Proof.
  intros this w es. subst es. unfold Bot.initializeCommands.
  destruct (commandList this) as [|c cs] eqn:Hlist; [done|].
  set (list := c :: cs).
  assert (Hrun : ∃ tail,
    try_catch
      (bind (Api.setMyCommands (bot_api this) list)
         (λ response,
            if ok response
            then console LLog "Successfully set bot commands."
            else console LError "Failed to set bot commands:"))
      (λ _, console LError "Error setting bot commands:") w
    = (Normal tt,
       logged (limited (limited w))
         (EvFetch (commands_request (bot_api this) list) :: tail))
    ∧ requests_of tail = [] ∧ entries tail = 0%nat).
  { unfold try_catch, bind. rewrite setMyCommands_runs. unfold exchange.
    fold (commands_request (bot_api this) list).
    destruct (network _ _) as [r|e];
      [destruct (json_of r) as [data|]; [destruct (ok data)|]|];
      unfold logged, console, emit; cbn [fst snd trace limiter clock network];
      eexists; rewrite <- ?app_assoc; (split; [reflexivity|done]). }
  destruct Hrun as (tail & Hrun & Hreq & Hent).
  rewrite Hrun. split; [done|].
  erewrite events_of_trace.
  2:{ rewrite Hrun. cbn [snd]. rewrite logged_trace, !limited_trace.
      rewrite <- !app_assoc. reflexivity. }
  split.
  - rewrite !requests_of_app, !requests_of_limit_events. simpl.
    by rewrite Hreq.
  - rewrite !entries_app, !entries_limit_events.
    change (entries (EvFetch _ :: tail)) with (entries tail). by rewrite Hent.
Qed.

(** ** The entry point *)

(** X10. [handle] never throws, whatever the request, the registered
    handlers and the webhook collaborator do. A POST to the token path
    whose body is not JSON is answered with the 500 response: the body is
    read, the failure is logged, and no handler runs. *)
Theorem handle_never_throws :
  ∀ (webhook_set : M Response) (this : TelegramBot) (request : Request)
    (w : World),
    (∃ r, fst (Bot.handle webhook_set this request w) = Normal r)
    ∧ (if String.eqb (pathname request) ("/" +:+ token this)
          && String.eqb (req_method request) "POST"
       then match req_json request with
            | None =>
                Bot.handle webhook_set this request w
                = (Normal server_error,
                   logged w [EvReadBody;
                             EvConsole LError "Error handling request:"])
            | Some _ => True
            end
       else True).
Proof.
  intros webhook_set this request w. split.
  - unfold Bot.handle, try_catch.
    match goal with
    | |- context [match ?body w with _ => _ end] =>
        destruct (body w) as [[r|e] w']
    end; eauto.
  - destruct (String.eqb (pathname request) _) eqn:Hpath; [|done].
    destruct (String.eqb (req_method request) _) eqn:Hpost; [|done].
    destruct (req_json request) eqn:Hbody; [done|].
    apply String.eqb_eq in Hpath, Hpost.
    unfold Bot.handle, Bot.request_json, server_error, logged.
    rewrite Hpost, Hpath, Hbody, !String.eqb_refl. run_m.
    by rewrite <- app_assoc.
Qed.

(** X11. A request to the token path with a method other than POST never
    has its body read and never reaches a handler. A GET whose [command]
    parameter is [set] is handed to the webhook collaborator: its response
    is the answer, and its failure the 500. Every other such request gets
    the plain [ok] and leaves the world as it was. *)
Theorem handle_other_methods :
  ∀ (webhook_set : M Response) (this : TelegramBot) (request : Request)
    (w : World),
    pathname request = "/" +:+ token this →
    req_method request ≠ "POST" →
    Bot.handle webhook_set this request w
    = if String.eqb (req_method request) "GET"
      then match search_command request with
           | Some "set" =>
               match webhook_set w with
               | (Normal r, w') => (Normal (Resp r), w')
               | (Throw _, w') => answered_500 w'
               end
           | _ => (Normal ok_response, w)
           end
      else (Normal ok_response, w).
Proof.
  intros webhook_set this request w Hpath Hmethod.
  apply String.eqb_neq in Hmethod.
  unfold Bot.handle. rewrite Hpath, String.eqb_refl, Hmethod.
  destruct (String.eqb (req_method request) "GET"); [|done].
  unfold try_catch.
  destruct (search_command request) as [c|]; [|done].
  destruct (String.eqb c "set") eqn:Hc.
  - apply String.eqb_eq in Hc as ->. unfold bind, answered_500, logged.
    destruct (webhook_set w) as [[r|e] w']; run_m; done.
  - apply String.eqb_neq in Hc.
    repeat (destruct c as [|[[] [] [] [] [] [] [] []] c]; try done).
Qed.

Lemma handle_other_methods_witness :
  Bot.handle no_webhook (Bot.new "T" None)
    {| req_method := "GET"; pathname := "/T"; search_command := Some "set";
       req_json := None |} offline
  = answered_500 offline.
Proof.
  apply (handle_other_methods no_webhook (Bot.new "T" None)
           {| req_method := "GET"; pathname := "/T";
              search_command := Some "set"; req_json := None |} offline).
  - reflexivity.
  - discriminate.
Defined.

(** X12. Commands only exist for Message and BusinessMessage updates. A
    POST of an update of any other kind (Photo, Document, Inline,
    Callback) goes to the handler registered for its kind, or gets the 400
    when there is none, whatever handlers are registered as commands. *)
Theorem commands_do_not_apply_to_other_kinds :
  ∀ (webhook_set : M Response) (this : TelegramBot) (request : Request)
    (u : TelegramUpdate) (ut : UpdateType) (w : World),
    req_method request = "POST" →
    pathname request = "/" +:+ token this →
    req_json request = Some u →
    classify u = Some ut →
    carries_command ut = false →
    let ctx := Ctx.make (token this) (bot_api this) u in
    command ctx = None
    ∧ Bot.handle webhook_set this request w
      = match events this !! UpdateType_value ut with
        | Some callback =>
            invoke callback ctx
              (logged w [EvReadBody; EvConsole LLog "Received update:";
                         EvConsole LLog ("Dispatching event: "
                                         +:+ UpdateType_value ut)])
        | None =>
            (Normal (Resp (new_Response "No handler for this update type" 400)),
             logged w [EvReadBody; EvConsole LLog "Received update:";
                       EvConsole LWarn "No handler found for:"])
        end.
Proof.
  intros webhook_set this request u ut w Hpost Hpath Hbody Hkind Hcarries ctx.
  assert (Hut : update_type ctx = Some ut) by exact Hkind.
  assert (Hcmd : command ctx = None).
  { subst ctx. simpl. unfold Ctx.extract_command. rewrite Hkind.
    by destruct ut. }
  split; [exact Hcmd|].
  rewrite (handle_post_runs webhook_set this request u w Hpost Hpath Hbody).
  fold ctx. cbv zeta. unfold Bot.dispatch. rewrite command_lookup_cases.
  unfold names_inherited_member, nonempty_command.
  rewrite Hut, Hcmd. cbn [mbind option_bind]. rewrite events_get.
  destruct (events this !! UpdateType_value ut) as [callback|].
  - unfold invoke, logged. run_m. rewrite <- !app_assoc. cbn [app].
    destruct (callback ctx _) as [[r|e] w']; run_m; done.
  - unfold logged. run_m. by rewrite <- !app_assoc.
Qed.

Lemma commands_do_not_apply_to_other_kinds_witness :
  fst (Bot.handle no_webhook
         (Bot.onEvent Inline (answering "inline")
            (Bot.onCommand "start" "Start the bot" (answering "command")
               (Bot.new "T" None)))
         (post_to "/T" (inline_update "/start")) offline)
  = Normal (Resp (new_Response "inline" 200)).
Proof.
  refine (f_equal fst (proj2
    (commands_do_not_apply_to_other_kinds no_webhook
       (Bot.onEvent Inline (answering "inline")
          (Bot.onCommand "start" "Start the bot" (answering "command")
             (Bot.new "T" None)))
       (post_to "/T" (inline_update "/start")) (inline_update "/start")
       Inline offline _ _ _ _ _))); reflexivity.
Defined.

(** ** The reply channel, kind by kind *)

(** X13. An operation called on a context of a kind it does not serve
    sends nothing: it returns normally and leaves one warning on the
    console. [replyPhoto] serves Message, Photo and Inline only;
    [replyVideo] Message and Inline only (not Photo); [sendTyping] serves
    neither Inline nor Callback; [replyInline] serves Inline only; [reply]
    with a text of at most 4096 characters does not serve Callback. On a
    context without a kind all of them stop at once. *)
Theorem unserved_kinds_only_warn :
  ∀ (this : TelegramExecutionContext) (photo caption video title message : string)
    (parse_mode : option ParseMode) (options : Params) (w : World),
    match update_type this with
    | Some Message | Some Photo | Some Inline => True
    | Some _ =>
        Ctx.replyPhoto this photo caption options w
        = only_warns "Unhandled update type for replyPhoto:" w
    | None =>
        Ctx.replyPhoto this photo caption options w
        = only_warns "No update type set." w
    end
    ∧ match update_type this with
      | Some Message | Some Inline => True
      | Some _ =>
          Ctx.replyVideo this video options w
          = only_warns "Unhandled update type for replyVideo:" w
      | None =>
          Ctx.replyVideo this video options w
          = only_warns "No update type set." w
      end
    ∧ match update_type this with
      | Some Inline | Some Callback =>
          Ctx.sendTyping this w
          = only_warns "Unhandled update type for sendTyping:" w
      | Some _ => True
      | None => Ctx.sendTyping this w = only_warns "No update type set." w
      end
    ∧ match update_type this with
      | Some Inline => True
      | _ =>
          Ctx.replyInline this title message parse_mode w
          = only_warns "replyInline called on non-inline update type:" w
      end
    ∧ match update_type this with
      | Some Callback =>
          if Nat.ltb 4096 (String.length message) then True
          else Ctx.reply this message parse_mode options w
               = only_warns "Unhandled update type:" w
      | Some _ => True
      | None =>
          Ctx.reply this message parse_mode options w
          = only_warns "No update type set." w
      end.
Proof.
  intros this photo caption video title message parse_mode options w.
  unfold Ctx.replyPhoto, Ctx.replyVideo, Ctx.sendTyping, Ctx.replyInline,
    Ctx.reply, only_warns.
  destruct (update_type this) as [[]|]; repeat split; try done.
  change Ctx.MAX_MESSAGE_LENGTH with 4096%nat.
  by destruct (Nat.ltb 4096 (String.length message)).
Qed.

(** What every guarded inline branch comes to. *)
Lemma answer_with_runs this r caught w :
  fst (Ctx.answer_with this r caught w) = Normal tt
  ∧ requests_of (events_of (Ctx.answer_with this r caught) w)
    = [inline_answer this r].
Proof.
  unfold Ctx.answer_with, Api.answerInline.
  destruct (guarded_exchange
              (Api.post (api this) "answerInlineQuery"
                 (<[ "results" := VResults [r] ]>
                    {[ "inline_query_id" := VStr (Ctx.inline_query_id this) ]}))
              _ _ "answerInline" ("Exception in " +:+ caught +:+ ":")
              w _ (post_runs _ _ _ _)) as (Hret & tail & Htr & Htail).
  split; [exact Hret|].
  erewrite events_of_trace
    by (rewrite Htr, limited_trace, <- app_assoc; reflexivity).
  rewrite requests_of_app, requests_of_limit_events. simpl.
  by rewrite Htail.
Qed.

(** X14. On an Inline context every reply operation returns normally,
    whatever the upstream does, and sends exactly one request: an answer
    to the inline query of the update holding a single result with id
    ["1"]. For [reply] that is the article whose title and text are both
    the message, for a text of any length, so [reply(message)] sends what
    [replyInline(message, message)] sends; the options passed to [reply],
    [replyPhoto] and [replyVideo] are not part of the answer. *)
Theorem inline_operations_answer_once :
  ∀ (this : TelegramExecutionContext) (photo caption video title message : string)
    (parse_mode : option ParseMode) (options : Params) (w : World),
    update_type this = Some Inline →
    (fst (Ctx.reply this message parse_mode options w) = Normal tt
     ∧ requests_of (events_of (Ctx.reply this message parse_mode options) w)
       = [inline_answer this
            (InlineQueryResultArticle "1" message message parse_mode)])
    ∧ (fst (Ctx.replyInline this title message parse_mode w) = Normal tt
       ∧ requests_of (events_of (Ctx.replyInline this title message parse_mode) w)
         = [inline_answer this
              (InlineQueryResultArticle "1" title message parse_mode)])
    ∧ (fst (Ctx.replyPhoto this photo caption options w) = Normal tt
       ∧ requests_of (events_of (Ctx.replyPhoto this photo caption options) w)
         = [inline_answer this
              (InlineQueryResultPhoto "1" photo photo
                 (if Js.truthy_str caption then Some caption else None))])
    ∧ (fst (Ctx.replyVideo this video options w) = Normal tt
       ∧ requests_of (events_of (Ctx.replyVideo this video options) w)
         = [inline_answer this
              (InlineQueryResultVideo "1" video "video/mp4"
                 "https://example.com/thumb.jpg" "Video Title"
                 (Some "Video Caption"))]).
Proof.
  intros this photo caption video title message parse_mode options w Hkind.
  unfold Ctx.reply, Ctx.replyInline, Ctx.replyPhoto, Ctx.replyVideo.
  rewrite Hkind. cbn [UpdateType_eqb negb]. rewrite andb_false_r.
  repeat split; apply answer_with_runs.
Qed.

Lemma inline_operations_answer_once_witness :
  fst (Ctx.reply (ctx_of (inline_update "hello")) (letters 5000) None ∅ offline)
  = Normal tt.
Proof.
  refine (proj1 (proj1 (inline_operations_answer_once
    (ctx_of (inline_update "hello")) "" "" "" "" (letters 5000) None ∅ offline
    _))).
  reflexivity.
Defined.

(** X15. On a Message, Photo or Document context, [reply] with a text of
    at most 4096 characters (4096 included) returns normally whatever the
    upstream does and sends exactly one request, a [sendMessage] whose
    body carries the text, the chat id and message id of the update and
    the parse mode under their four keys, and every other option as
    given: an option named like one of the four cannot override it. *)
Theorem short_reply_is_one_text_message :
  ∀ (this : TelegramExecutionContext) (ut : UpdateType) (message : string)
    (parse_mode : option ParseMode) (options : Params) (w : World),
    update_type this = Some ut →
    ut = Message ∨ ut = Photo ∨ ut = Document →
    (String.length message ≤ 4096)%nat →
    fst (Ctx.reply this message parse_mode options w) = Normal tt
    ∧ ∃ body,
        requests_of (events_of (Ctx.reply this message parse_mode options) w)
          = [post_request (api this) "sendMessage" body]
        ∧ body !! "text" = Some (VStr message)
        ∧ body !! "chat_id" = Some (VStr (Ctx.getChatId this))
        ∧ body !! "reply_to_message_id"
          = Some (JsVal.of_ostr (Ctx.getReplyToMessageId this))
        ∧ body !! "parse_mode" = Some (Ctx.parse_mode_val parse_mode)
        ∧ ∀ k, k ∉ message_keys → body !! k = options !! k.
Proof.
  intros this ut message parse_mode options w Hkind Hut Hlen.
  assert (Hshort : Nat.ltb Ctx.MAX_MESSAGE_LENGTH (String.length message) = false)
    by (by apply Nat.ltb_ge).
  unfold Ctx.reply. rewrite Hkind, Hshort. cbn [andb].
  set (body := <[ "text" := _ ]> _).
  assert (Hrun : (match ut with
                  | Message | Photo | Document =>
                      Ctx.sendMessage this body "sendMessage"
                  | _ => Ctx.sendMessage this body "sendMessage"
                  end) = Ctx.sendMessage this body "sendMessage")
    by (by destruct ut).
  assert (Hbranch : ∀ (a b c d : M unit),
            match ut with
            | Message | Photo | Document => a
            | Inline => b
            | Callback => c
            | BusinessMessage => d
            end = a)
    by (by destruct Hut as [->|[->| ->]]).
  rewrite Hbranch. clear Hrun Hbranch.
  unfold Ctx.sendMessage, Api.sendMessage.
  destruct (guarded_exchange (Api.post (api this) "sendMessage" body)
              _ _ "sendMessage" ("Exception in " +:+ "sendMessage" +:+ ":")
              w _ (post_runs _ _ _ _)) as (Hret & tail & Htr & Htail).
  split; [exact Hret|]. exists body. split.
  { erewrite events_of_trace
      by (rewrite Htr, limited_trace, <- app_assoc; reflexivity).
    rewrite requests_of_app, requests_of_limit_events. simpl.
    by rewrite Htail. }
  unfold body.
  repeat split;
    try (repeat (rewrite lookup_insert_eq || rewrite lookup_insert_ne by done);
         done).
  intros k Hk. unfold message_keys in Hk.
  repeat (apply not_elem_of_cons in Hk as [? Hk]).
  by rewrite !lookup_insert_ne.
Qed.

Lemma short_reply_is_one_text_message_witness :
  fst (Ctx.reply (ctx_of (text_update "hi")) (letters 4096) None
         {[ "chat_id" := VStr "1" ]} offline) = Normal tt.
Proof.
  refine (proj1 (short_reply_is_one_text_message (ctx_of (text_update "hi"))
                   Message (letters 4096) None {[ "chat_id" := VStr "1" ]}
                   offline _ _ _)).
  - reflexivity.
  - by left.
  - apply Nat.leb_le. vm_compute. reflexivity.
Defined.

(** The same exchange with its answer checked but no guard around it. *)
Lemma unguarded_exchange (m : M TelegramApiResponse) req failure context w w0 :
  m w = exchange req failure w0 →
  ∃ tail,
    trace (snd (bind m (λ response, Ctx.handleApiResponse response context) w))
    = trace w0 ++ EvFetch req :: tail
    ∧ requests_of tail = [].
Proof.
  intros Hm. unfold bind. rewrite Hm.
  unfold exchange, Ctx.handleApiResponse.
  destruct (network w0 req) as [r|e];
    [destruct (json_of r) as [data|]; [destruct (ok data)|]|];
    unfold logged; run_m; eexists;
    rewrite <- ?app_assoc; (split; [reflexivity|done]).
Qed.

(** X16. On a BusinessMessage context, [reply] with a text of at most
    4096 characters sends one [sendMessage] whose body holds the chat id
    of the business message, the text, the business connection id and the
    parse mode, and nothing else: no reply-to id, and none of the options
    the caller passed. *)
Theorem business_reply_drops_options :
  ∀ (this : TelegramExecutionContext) (message : string)
    (parse_mode : option ParseMode) (options : Params) (w : World),
    update_type this = Some BusinessMessage →
    (String.length message ≤ 4096)%nat →
    ∃ body,
      requests_of (events_of (Ctx.reply this message parse_mode options) w)
        = [post_request (api this) "sendMessage" body]
      ∧ body !! "text" = Some (VStr message)
      ∧ body !! "chat_id" = Some (VStr (Ctx.getChatId this))
      ∧ body !! "business_connection_id" = Some (Ctx.connection_id this)
      ∧ body !! "parse_mode" = Some (Ctx.parse_mode_val parse_mode)
      ∧ ∀ k, k ∉ business_keys → body !! k = None.
Proof.
  intros this message parse_mode options w Hkind Hlen.
  assert (Hshort : Nat.ltb Ctx.MAX_MESSAGE_LENGTH (String.length message) = false)
    by (by apply Nat.ltb_ge).
  unfold Ctx.reply. rewrite Hkind, Hshort. cbn [andb].
  unfold Api.sendMessage. set (body := <[ "parse_mode" := _ ]> _).
  exists body. split.
  { destruct (unguarded_exchange (Api.post (api this) "sendMessage" body)
                _ _ "sendMessage" w _ (post_runs _ _ _ _)) as (tail & Htr & Htail).
    erewrite events_of_trace
      by (rewrite Htr, limited_trace, <- app_assoc; reflexivity).
    rewrite requests_of_app, requests_of_limit_events. simpl.
    by rewrite Htail. }
  unfold body, Ctx.getChatId. rewrite Hkind.
  repeat split;
    try (repeat (rewrite lookup_insert_eq || rewrite lookup_insert_ne by done);
         first [done | by apply lookup_singleton_eq]).
  intros k Hk. unfold business_keys in Hk.
  repeat (apply not_elem_of_cons in Hk as [? Hk]).
  rewrite !lookup_insert_ne by done. by apply lookup_singleton_ne.
Qed.

Lemma business_reply_drops_options_witness :
  ∃ body,
    requests_of (events_of
      (Ctx.reply (ctx_of (business_update "hi")) "hello" None
         {[ "disable_notification" := VBool true ]}) offline)
      = [post_request (Api.new "T") "sendMessage" body]
    ∧ body !! "disable_notification" = None.
Proof.
  destruct (business_reply_drops_options (ctx_of (business_update "hi"))
              "hello" None {[ "disable_notification" := VBool true ]} offline)
    as (body & Hreq & _ & _ & _ & _ & Hother).
  - reflexivity.
  - simpl. lia.
  - exists body. split; [exact Hreq|]. apply Hother.
    by apply (bool_decide_eq_false_1 (_ ∈ business_keys)).
Defined.

(** ** Reply targets and source text *)

(** X17. The chat id and reply-to id of a context follow the kind of its
    update. For Message, Photo and Document the update does hold a message
    and they are its chat id and message id; for BusinessMessage it holds
    a business message and they are that one's, even when a plain message
    is present as well; for Inline, Callback and an update of no kind the
    chat id is the empty string and there is no reply-to id. *)
Theorem reply_target_follows_kind :
  ∀ (tok : string) (a : TelegramApi) (u : TelegramUpdate),
    let ctx := Ctx.make tok a u in
    match classify u with
    | Some Message | Some Photo | Some Document =>
        ∃ m, message u = Some m
             ∧ Ctx.getChatId ctx = pretty (chat_id (chat m))
             ∧ Ctx.getReplyToMessageId ctx = Some (pretty (message_id m))
    | Some BusinessMessage =>
        ∃ m, business_message u = Some m
             ∧ Ctx.getChatId ctx = pretty (chat_id (bm_chat m))
             ∧ Ctx.getReplyToMessageId ctx = Some (pretty (bm_message_id m))
    | Some Inline | Some Callback | None =>
        Ctx.getChatId ctx = "" ∧ Ctx.getReplyToMessageId ctx = None
    end.
Proof.
  intros tok a u ctx. subst ctx.
  unfold Ctx.getChatId, Ctx.getReplyToMessageId. cbn [update_type Ctx.make update].
  destruct (classify u) as [[]|] eqn:Hk; try done.
  all: destruct u as [[[id c [[|? ?]|] [ph|] [doc|]]|] [bm|]
                        [[iq [|? ?]]|] [[[|? ?]]|]];
       try discriminate Hk; by eexists.
Qed.

(** X18. The text a command is read from. For a Message update it is the
    message text, also when a business message is present. For a
    BusinessMessage update the message, if any, has no text, and the
    source is the text of the business message, or the empty string when
    it has none; so such an update carries a command exactly when its
    business text starts with a slash. *)
Theorem business_command_source :
  ∀ (tok : string) (a : TelegramApi) (u : TelegramUpdate),
    classify u = Some BusinessMessage →
    ∃ m, business_message u = Some m
         ∧ Js.truthy_ostr (message_text u) = false
         ∧ Ctx.messageText u = Js.or_empty (bm_text m)
         ∧ (is_Some (command (Ctx.make tok a u))
            ↔ Js.startsWith_slash (Js.or_empty (bm_text m)) = true).
Proof.
  intros tok a u Hk.
  assert (Hm : ∃ m, business_message u = Some m
                    ∧ Js.truthy_ostr (message_text u) = false
                    ∧ Ctx.messageText u = Js.or_empty (bm_text m)).
  { unfold Ctx.messageText, Js.or_ostr.
    destruct u as [[[id c [[|? ?]|] [ph|] [doc|]]|] [bm|]
                     [[iq [|? ?]]|] [[[|? ?]]|]];
      try discriminate Hk; by eexists. }
  destruct Hm as (m & Hbm & Hfalsy & Htext).
  exists m. repeat split; try done.
  - intros [c Hc]. simpl in Hc. unfold Ctx.extract_command in Hc.
    rewrite Hk, Htext in Hc.
    by destruct (Js.startsWith_slash (Js.or_empty (bm_text m))).
  - intros Hs. simpl. unfold Ctx.extract_command. rewrite Hk, Htext, Hs.
    destruct (Js.split_space _) eqn:Hsp;
      [by apply split_space_nonempty in Hsp|]. by eexists.
Qed.

Lemma business_command_source_witness :
  ∃ m, business_message (business_update "/help me") = Some m
       ∧ Js.truthy_ostr (message_text (business_update "/help me")) = false
       ∧ Ctx.messageText (business_update "/help me") = Js.or_empty (bm_text m)
       ∧ (is_Some (command (ctx_of (business_update "/help me")))
          ↔ Js.startsWith_slash (Js.or_empty (bm_text m)) = true).
Proof.
  apply (business_command_source "T" (Api.new "T") (business_update "/help me")).
  reflexivity.
Defined.

(** ** Waiting, and what goes out *)

Lemma limited_clock w :
  clock (limited w)
  = match snd (RateLimit.step_nominal (clock w) (limiter w)) with
    | Some ms => RateLimit.timer_fires (clock w) ms
    | None => clock w
    end.
Proof.
  unfold limited. rewrite rateLimit_runs.
  by destruct (RateLimit.step_nominal _ _).
Qed.

Lemma exchange_clock req failure w :
  clock (snd (exchange req failure w)) = clock w.
Proof. destruct (exchange_world req failure w) as (tail & -> & _). done. Qed.

(** X19. A [post] that enters a full, still open window is not sent
    before that window has ended: the run sleeps for the time that is
    left, the clock stands at the old window end when the request goes
    out, and the request is the first one counted in the window that
    starts there. *)
Theorem post_waits_for_the_window :
  ∀ (this : TelegramApi) (endpoint : string) (body : Params) (w : World),
    30 ≤ requestCount (limiter w) →
    clock w ≤ resetTime (limiter w) →
    let out := Api.post this endpoint body w in
    clock (snd out) = resetTime (limiter w)
    ∧ limiter (snd out)
      = {| requestCount := 1; resetTime := resetTime (limiter w) + 1000 |}
    ∧ ∃ tail,
        events_of (Api.post this endpoint body) w
        = EvRateLimit :: EvSleep (resetTime (limiter w) - clock w)
            :: EvFetch (post_request this endpoint body) :: tail
        ∧ requests_of tail = [].
Proof.
  intros this endpoint body w Hfull Hopen out. subst out.
  assert (Hstep : RateLimit.step_nominal (clock w) (limiter w)
                  = ({| requestCount := 1;
                        resetTime := resetTime (limiter w) + 1000 |},
                     Some (resetTime (limiter w) - clock w))).
  { unfold RateLimit.step_nominal. rewrite step_cases.
    destruct (Z.ltb_spec (resetTime (limiter w)) (clock w)); [lia|].
    destruct (Z.leb_spec 30 (requestCount (limiter w))); [|lia].
    unfold RateLimit.timer_fires, RateLimit.waitTime, RateLimit.refresh.
    destruct (Z.ltb_spec (resetTime (limiter w)) (clock w)); [lia|].
    do 3 f_equal. lia. }
  rewrite post_runs. repeat split.
  - rewrite exchange_clock, limited_clock, Hstep. simpl.
    unfold RateLimit.timer_fires. lia.
  - by rewrite exchange_limiter, limited_limiter, Hstep.
  - eexists. split.
    + apply events_of_trace.
      rewrite post_runs, exchange_trace, limited_trace.
      unfold limit_events. rewrite Hstep. cbn [snd].
      rewrite <- app_assoc. reflexivity.
    + by destruct (fst (exchange _ _ _)).
Qed.

Lemma post_waits_for_the_window_witness :
  clock (snd (Api.post (Api.new "T") "sendMessage" ∅
                {| limiter := {| requestCount := 30; resetTime := 1000 |};
                   clock := 400; network := network offline; trace := [] |}))
  = 1000.
Proof.
  refine (proj1 (post_waits_for_the_window (Api.new "T") "sendMessage" ∅
    {| limiter := {| requestCount := 30; resetTime := 1000 |};
       clock := 400; network := network offline; trace := [] |} _ _)).
  - simpl. lia.
  - simpl. lia.
Defined.

(** X20. The encoding of [sendDocument] depends on the document alone:
    whenever it is not a Blob (a file id, a URL, or missing altogether)
    the call is a [post], one JSON request to [sendDocument] whose body is
    the parameter object as given, sent after one limiter entry. *)
Theorem sendDocument_by_reference_is_json :
  ∀ (this : TelegramApi) (params : Params) (w : World),
    JsVal.is_blob (JsVal.get params "document") = false →
    Api.sendDocument this params w = Api.post this "sendDocument" params w
    ∧ requests_of (events_of (Api.sendDocument this params) w)
      = [post_request this "sendDocument" params]
    ∧ entries (events_of (Api.sendDocument this params) w) = 1%nat.
Proof.
  intros this params w Hdoc.
  assert (Hpost : Api.sendDocument this params = Api.post this "sendDocument" params).
  { unfold Api.sendDocument.
    by destruct (JsVal.get params "document"). }
  rewrite Hpost. split; [done|].
  assert (Hes : events_of (Api.post this "sendDocument" params) w
    = limit_events w ++ EvFetch (post_request this "sendDocument" params) ::
        match fst (Api.post this "sendDocument" params w) with
        | Normal _ => []
        | Throw _ => [EvConsole LError ("Error in POST " +:+ "sendDocument" +:+ ":")]
        end).
  { apply events_of_trace.
    by rewrite post_runs, exchange_trace, limited_trace, <- app_assoc. }
  rewrite Hes. split.
  - rewrite requests_of_app, requests_of_limit_events.
    by destruct (fst (Api.post _ _ _ _)).
  - rewrite entries_app, entries_limit_events.
    by destruct (fst (Api.post _ _ _ _)).
Qed.

Lemma sendDocument_by_reference_is_json_witness :
  requests_of (events_of (Api.sendDocument (Api.new "T")
                            {[ "chat_id" := VStr "42" ]}) offline)
  = [post_request (Api.new "T") "sendDocument" {[ "chat_id" := VStr "42" ]}].
Proof.
  refine (proj1 (proj2 (sendDocument_by_reference_is_json (Api.new "T")
                          {[ "chat_id" := VStr "42" ]} offline _))).
  reflexivity.
Defined.

(** X21. The string values of the six kinds are pairwise different, so a
    kind handler is stored under a key of its own: [onEvent] replaces the
    handler of its kind and of no other, and touches neither the commands
    nor the command list. *)
Theorem onEvent_replaces_one_kind :
  ∀ (event other : UpdateType) (callback : Handler) (this : TelegramBot),
    events (Bot.onEvent event callback this) !! UpdateType_value other
    = (if UpdateType_eqb event other then Some callback
       else events this !! UpdateType_value other)
    ∧ commands (Bot.onEvent event callback this) = commands this
    ∧ commandList (Bot.onEvent event callback this) = commandList this.
Proof.
  intros event other callback this. repeat split. simpl.
  destruct (UpdateType_eqb event other) eqn:Heq.
  - assert (event = other) as -> by (by destruct event, other).
    apply lookup_insert_eq.
  - apply lookup_insert_ne. by destruct event, other.
Qed.

Lemma post_then_return_requests this endpoint body w :
  requests_of (events_of (Api.post this endpoint body;; ret tt)%js w)
  = [post_request this endpoint body].
Proof.
  erewrite events_of_trace.
  2:{ unfold bind. rewrite post_runs.
      instantiate (1 := limit_events w ++
        EvFetch (post_request this endpoint body) ::
          match fst (exchange (post_request this endpoint body)
                       ("Error in POST " +:+ endpoint +:+ ":") (limited w)) with
          | Normal _ => []
          | Throw _ => [EvConsole LError ("Error in POST " +:+ endpoint +:+ ":")]
          end).
      pose proof (exchange_trace (post_request this endpoint body)
                    ("Error in POST " +:+ endpoint +:+ ":") (limited w)) as Htr.
      destruct (exchange _ _ (limited w)) as [[data|e] w']; cbn [fst snd] in *;
        unfold ret; cbn [snd]; by rewrite Htr, limited_trace, <- app_assoc. }
  rewrite requests_of_app, requests_of_limit_events.
  by destruct (fst (exchange _ _ _)).
Qed.

(** X22. The direct media sends. On a Message or Photo context
    [replyPhoto] sends one [sendPhoto] whose body carries the photo, the
    caption (the empty string when none is given), and the chat id and
    message id of the update; on a Message context [replyVideo] sends one
    [sendVideo] with the video and the same two ids. In both the other
    options pass through as given and cannot override those keys. *)
Theorem media_replies_send_one_request :
  ∀ (this : TelegramExecutionContext) (photo caption video : string)
    (options : Params) (w : World),
    let photo_sent :=
      ∃ body,
        requests_of (events_of (Ctx.replyPhoto this photo caption options) w)
          = [post_request (api this) "sendPhoto" body]
        ∧ body !! "photo" = Some (VStr photo)
        ∧ body !! "caption" = Some (VStr caption)
        ∧ body !! "chat_id" = Some (VStr (Ctx.getChatId this))
        ∧ body !! "reply_to_message_id"
          = Some (JsVal.of_ostr (Ctx.getReplyToMessageId this))
        ∧ ∀ k, k ∉ photo_keys → body !! k = options !! k in
    let video_sent :=
      ∃ body,
        requests_of (events_of (Ctx.replyVideo this video options) w)
          = [post_request (api this) "sendVideo" body]
        ∧ body !! "video" = Some (VStr video)
        ∧ body !! "chat_id" = Some (VStr (Ctx.getChatId this))
        ∧ body !! "reply_to_message_id"
          = Some (JsVal.of_ostr (Ctx.getReplyToMessageId this))
        ∧ ∀ k, k ∉ video_keys → body !! k = options !! k in
    match update_type this with
    | Some Message => photo_sent ∧ video_sent
    | Some Photo => photo_sent
    | _ => True
    end.
Proof.
  intros this photo caption video options w.
  cbv zeta. unfold Ctx.replyPhoto, Ctx.replyVideo, Api.sendPhoto, Api.sendVideo.
  destruct (update_type this) as [[]|]; try done; repeat split.
  all: eexists; split; [apply post_then_return_requests|].
  all: repeat split;
       try (repeat (rewrite lookup_insert_eq || rewrite lookup_insert_ne by done);
            done).
  all: intros k Hk; unfold photo_keys, video_keys in Hk;
       repeat (apply not_elem_of_cons in Hk as [? Hk]);
       by rewrite !lookup_insert_ne.
Qed.

(** X23. [sendTyping] on a Message, Photo or Document context sends one
    [sendChatAction] whose body is the chat id and the action [typing] and
    nothing else; on a BusinessMessage context the body also carries the
    business connection id, and the chat id is that of the business
    message. *)
Theorem sendTyping_sends_the_typing_action :
  ∀ (this : TelegramExecutionContext) (w : World),
    let plain : Params :=
      <[ "action" := VStr "typing" ]>
        {[ "chat_id" := VStr (Ctx.getChatId this) ]} in
    match update_type this with
    | Some Message | Some Photo | Some Document =>
        requests_of (events_of (Ctx.sendTyping this) w)
        = [post_request (api this) "sendChatAction" plain]
    | Some BusinessMessage =>
        requests_of (events_of (Ctx.sendTyping this) w)
        = [post_request (api this) "sendChatAction"
             (<[ "business_connection_id" := Ctx.connection_id this ]> plain)]
    | _ => True
    end.
Proof.
  intros this w. cbv zeta. unfold Ctx.sendTyping, Api.sendChatAction.
  destruct (update_type this) as [[]|]; try done;
    apply post_then_return_requests.
Qed.


(** ** Calls that stop early *)

(** X24. On a context of any kind but Inline, [reply] with a text of
    more than 4096 characters and no parse mode sends nothing: the
    parameter object it builds holds [parse_mode: undefined],
    [sendDocument] throws on that key before its request, and [reply]
    catches the error, so the caller gets a normal return and the run
    leaves one error line on the console and the limiter as it was. *)
Theorem long_reply_without_parse_mode_sends_nothing :
  ∀ (this : TelegramExecutionContext) (message : string) (options : Params)
    (ut : UpdateType) (w : World),
    update_type this = Some ut →
    ut ≠ Inline →
    (4096 < String.length message)%nat →
    Ctx.reply this message None options w
    = (Normal tt, logged w [EvConsole LError "Exception in sendDocument:"]).
Proof.
  intros this message options ut w Hut Hkind Hlong.
  assert (Hlt : Nat.ltb Ctx.MAX_MESSAGE_LENGTH (String.length message) = true)
    by (by apply Nat.ltb_lt).
  assert (Hnot : UpdateType_eqb ut Inline = false) by (by destruct ut).
  unfold Ctx.reply. rewrite Hut, Hlt, Hnot. cbn [andb negb].
  set (docOptions := <[ "caption" := _ ]> _).
  assert (Hdoc : JsVal.get docOptions "document" = VBlob message "text/plain").
  { unfold JsVal.get, docOptions.
    by rewrite lookup_insert_ne, lookup_insert_eq by done. }
  assert (Hundef : docOptions !! "parse_mode" = Some VUndefined).
  { unfold docOptions. by rewrite !lookup_insert_ne, lookup_insert_eq by done. }
  assert (Hnone : Api.extra_fields docOptions = None).
  { destruct (Api.extra_fields docOptions) as [extras|] eqn:Hextras; [|done].
    assert (Hsome : is_Some (Api.extra_fields docOptions)) by (by rewrite Hextras).
    rewrite extra_fields_defined in Hsome.
    specialize (Hsome "parse_mode" VUndefined Hundef).
    discriminate Hsome.
    by apply (bool_decide_eq_false_1 (_ ∈ Api.named_fields)). }
  unfold try_catch, bind.
  by rewrite (sendDocument_blob_runs _ _ _ _ _ Hdoc), Hnone.
Qed.

Lemma long_reply_without_parse_mode_sends_nothing_witness :
  Ctx.reply (ctx_of (text_update "hi")) (letters 5000) None ∅ refusing
  = (Normal tt, logged refusing [EvConsole LError "Exception in sendDocument:"]).
Proof.
  apply (long_reply_without_parse_mode_sends_nothing
           (ctx_of (text_update "hi")) (letters 5000) ∅ Message refusing).
  - reflexivity.
  - discriminate.
  - apply Nat.ltb_lt. vm_compute. reflexivity.
Defined.

(** X25. [getFile] of the client, called without a usable id (an empty
    [file_id], or a bare string in place of the parameter object),
    answers 400 ["file_id is required"] right after its own limiter
    entry: one unit of the budget is used, [get] is never reached and no
    request is sent. *)
Theorem getFile_without_id_stops_after_one_entry :
  ∀ (this : TelegramApi) (params : Api.GetFileArg) (token : string) (w : World),
    JsVal.truthy (Api.arg_file_id params) = false →
    Api.getFile this params token w
      = (Normal (new_Response "file_id is required" 400), limited w)
    ∧ entries (events_of (Api.getFile this params token) w) = 1%nat
    ∧ requests_of (events_of (Api.getFile this params token) w) = []
    ∧ limiter (snd (Api.getFile this params token w))
      = fst (RateLimit.step_nominal (clock w) (limiter w)).
Proof.
  intros this params token w Hid.
  assert (Hrun : Api.getFile this params token w
                 = (Normal (new_Response "file_id is required" 400), limited w)).
  { unfold Api.getFile, bind. by rewrite rateLimit_normal, Hid. }
  assert (Hes : events_of (Api.getFile this params token) w = limit_events w).
  { apply events_of_trace. rewrite Hrun. apply limited_trace. }
  rewrite Hes, Hrun. repeat split.
  - apply entries_limit_events.
  - apply requests_of_limit_events.
  - apply limited_limiter.
Qed.

Lemma getFile_without_id_stops_after_one_entry_witness :
  entries (events_of (Api.getFile (Api.new "T") (Api.GetFileParams "") "T")
             refusing) = 1%nat.
Proof.
  refine (proj1 (proj2 (getFile_without_id_stops_after_one_entry
                          (Api.new "T") (Api.GetFileParams "") "T" refusing _))).
  reflexivity.
Defined.
